(** * Agent-Multitool-Demo: the tool registry, the tools and the
      orchestration loop of [main.py] / [tools.py], embedded in Rocq.

    Python values are modelled by [PyVal] (the JSON-shaped values a model
    backend can hand to the loop).  Everything the program obtains from
    outside its two source files (the model backend, the search providers,
    the interpreter's [exec], [repr], error wording and tracebacks, the
    operating system's refusal to open a path) is a field of the class
    [Externals]; every definition below is parametric in it, and the
    closed examples use the instance [demo]. *)

From Stdlib Require Import ZArith Ascii String List Bool Lia DecimalString.
From stdpp Require Import base option list gmap strings.

Set Warnings "-register-all".
Local Open Scope string_scope.
Local Open Scope list_scope.

(** ** Characters that cannot be written inside a string literal here *)

Definition dquote : ascii := ascii_of_nat 34.
Definition bslash : ascii := ascii_of_nat 92.
Definition nl : string := String (ascii_of_nat 10) EmptyString.

(** ** Python values *)

(** A [PDict] is an insertion-ordered association list with string keys;
    a lookup takes the first binding of the key.  Floating-point numbers
    are not part of the model. *)
Inductive PyVal : Type :=
| PNone
| PBool (b : bool)
| PInt (n : Z)
| PStr (s : string)
| PList (xs : list PyVal)
| PDict (kvs : list (string * PyVal)).

Fixpoint dict_lookup (k : string) (kvs : list (string * PyVal)) : option PyVal :=
  match kvs with
  | [] => None
  | (k', v) :: rest => if String.eqb k k' then Some v else dict_lookup k rest
  end.

(** [bool(v)], as used by [if tool_calls:] and [if assistant_response:]. *)
Definition truthy (v : PyVal) : bool :=
  match v with
  | PNone => false
  | PBool b => b
  | PInt n => negb (n =? 0)%Z
  | PStr s => negb (String.eqb s EmptyString)
  | PList xs => match xs with [] => false | _ => true end
  | PDict kvs => match kvs with [] => false | _ => true end
  end.

Definition is_dict (v : PyVal) : bool :=
  match v with PDict _ => true | _ => false end.


Definition type_name (v : PyVal) : string :=
  match v with
  | PNone => "NoneType" | PBool _ => "bool" | PInt _ => "int"
  | PStr _ => "str" | PList _ => "list" | PDict _ => "dict"
  end.

(** ** Exceptions and outcomes *)

Inductive ExcClass : Type :=
| KeyError | TypeError | AttributeError | EOFError | OSError | ImportError
| OtherException (name : string)
| SystemExit | KeyboardInterrupt.

(** Membership in the [Exception] hierarchy: what [except Exception]
    catches.  [SystemExit] and [KeyboardInterrupt] derive from
    [BaseException] only. *)
Definition is_Exception (c : ExcClass) : bool :=
  match c with
  | SystemExit | KeyboardInterrupt => false
  | _ => true
  end.

Definition is_KeyError (c : ExcClass) : bool :=
  match c with KeyError => true | _ => false end.

Definition is_KeyboardInterrupt (c : ExcClass) : bool :=
  match c with KeyboardInterrupt => true | _ => false end.

(** [exc_msg] is [str(e)]. *)
Record Exc : Type := { exc_class : ExcClass; exc_msg : string }.

Inductive Outcome (A : Type) : Type :=
| Returned (a : A)
| Raised (e : Exc).
Arguments Returned {A} a.
Arguments Raised {A} e.

(** Sequencing stops at the first exception: [x ← m; k] is stdpp's
    notation for [mbind]. *)
#[global] Instance outcome_bind : MBind Outcome := fun A B k m =>
  match m with
  | Returned a => k a
  | Raised e => Raised e
  end.

(** Errors raised by the interpreter itself rather than by a [raise] in
    the source.  Their class is fixed; their wording depends on the
    interpreter version and is taken from [Externals]. *)
Inductive Fault : Type :=
| MissingKey (k : string)                       (* d[k], k absent *)
| NotSubscriptable (v : PyVal) (k : string)     (* v[k], v not a dict *)
| Unhashable (v : PyVal)                        (* d.get(v), v a list or dict *)
| NoGetAttribute (v : PyVal)                    (* v.get, v not a dict *)
| NotIterable (v : PyVal)                       (* for _ in v *)
| KwargsNotMapping (f : string) (v : PyVal)     (* f called with keywords v, v not a dict *)
| UnexpectedKeyword (f : string) (k : string)   (* f(k=...), k no parameter *)
| MissingRequired (f : string) (ks : list string)
| PatternOnNonString (v : PyVal)                (* pattern.sub(_, v) *)
| OpenBadPath (v : PyVal)                       (* open(None), open([...]) *)
| WriteNotStr (v : PyVal)                       (* f.write(v), v not a str *)
| EndOfInput.                                   (* input() at end of stdin *)

Definition fault_class (f : Fault) : ExcClass :=
  match f with
  | MissingKey _ => KeyError
  | NoGetAttribute _ => AttributeError
  | EndOfInput => EOFError
  | _ => TypeError
  end.

(** ** The environment of the program *)

(** What executing a program does inside the process: to the namespace it
    runs in, to the files, to the redirected stdout and, past the
    redirection (stderr, the descriptor of stdout), to the console. *)
Record ExecResult (Obj : Type) : Type := {
  ex_env : gmap string Obj;       (* the namespace as the executed code left it *)
  ex_out : string;                (* what it wrote to the redirected stdout *)
  ex_exc : option Exc;            (* the exception that ended it, if any *)
  ex_files : gmap string string;  (* the files as it left them *)
  ex_console : list string        (* what it wrote to the console itself *)
}.
Arguments ex_env {Obj} _.
Arguments ex_out {Obj} _.
Arguments ex_exc {Obj} _.
Arguments ex_files {Obj} _.
Arguments ex_console {Obj} _.

Class Externals : Type := {
  (** the state of everything outside the process: network, providers *)
  Net : Type;
  (** interpreter objects stored in the namespace of [exec] *)
  Obj : Type;
  pd_module : Obj;
  plt_module : Obj;
  (** wording of interpreter errors, [traceback.format_exc()], [repr] of
      a [str], [str.strip] and [str.lower] *)
  fault_msg : Fault -> string;
  format_exc : Exc -> string;
  repr_str : string -> string;
  str_strip : string -> string;
  str_lower : string -> string;
  (** [DuckDuckGoSearchResults(backend="news").run(q)] *)
  ddg_news_run : PyVal -> Net -> Outcome PyVal * Net;
  (** [WikipediaQueryRun(WikipediaAPIWrapper(top_k_results,
      doc_content_chars_max)).run(q)] *)
  wikipedia_run : Z -> Z -> PyVal -> Net -> Outcome PyVal * Net;
  (** [open(path, "a")] refused by the operating system *)
  open_append_denied : string -> Net -> option Exc;
  (** [open(v, "a")] and the write that follows, for [v] an integer
      (a file descriptor) *)
  write_to_descriptor : PyVal -> PyVal -> Net -> Outcome PyVal * Net;
  (** [exec(code, g, g)] under [redirect_stdout], given the namespace,
      the files and the outside world *)
  py_exec : PyVal -> gmap string Obj -> gmap string string -> Net
            -> ExecResult Obj * Net;
  (** [ollama.chat(model=MODEL, messages=..., tools=TOOL_SPECS)] *)
  ollama_chat : list PyVal -> Net -> Outcome PyVal * Net
}.

Definition raise_fault `{Externals} {A} (f : Fault) : Outcome A :=
  Raised {| exc_class := fault_class f; exc_msg := fault_msg f |}.

(** ** Built-in operations on values *)

Section Builtins.
Context `{Externals}.

(** [v[k]] *)
Definition py_getitem (v : PyVal) (k : string) : Outcome PyVal :=
  match v with
  | PDict kvs =>
      match dict_lookup k kvs with
      | Some x => Returned x
      | None => raise_fault (MissingKey k)
      end
  | _ => raise_fault (NotSubscriptable v k)
  end.

(** [v.get(k, default)] *)
Definition py_get (v : PyVal) (k : string) (default : PyVal) : Outcome PyVal :=
  match v with
  | PDict kvs =>
      match dict_lookup k kvs with
      | Some x => Returned x
      | None => Returned default
      end
  | _ => raise_fault (NoGetAttribute v)
  end.

Fixpoint chars_of (s : string) : list PyVal :=
  match s with
  | EmptyString => []
  | String c s' => PStr (String c EmptyString) :: chars_of s'
  end.

(** The items a [for] loop draws from [v]. *)
Definition py_iter (v : PyVal) : Outcome (list PyVal) :=
  match v with
  | PList xs => Returned xs
  | PStr s => Returned (chars_of s)
  | PDict kvs => Returned (map (fun kv => PStr (fst kv)) kvs)
  | _ => raise_fault (NotIterable v)
  end.

Definition Z_to_string (n : Z) : string :=
  NilZero.string_of_int (Z.to_int n).

Fixpoint py_repr (v : PyVal) : string :=
  match v with
  | PNone => "None"
  | PBool true => "True"
  | PBool false => "False"
  | PInt n => Z_to_string n
  | PStr s => repr_str s
  | PList xs => "[" +:+ String.concat ", " (map py_repr xs) +:+ "]"
  | PDict kvs =>
      "{" +:+ String.concat ", "
               (map (fun kv => let '(k, x) := kv in
                               repr_str k +:+ ": " +:+ py_repr x) kvs) +:+ "}"
  end.

(** [str(v)], which is also what an f-string field inserts. *)
Definition py_str (v : PyVal) : string :=
  match v with
  | PStr s => s
  | _ => py_repr v
  end.
End Builtins.

(** ** The state of the process and of its surroundings *)

(** What the process does that an observer can see, in order.  [EvRun] is
    a ghost marker: it records that the body of a tool was entered, after
    its arguments were bound. *)
Inductive Event : Type :=
| EvPrint (text : string)                 (* print(text) *)
| EvPrompt (text : string)                (* the prompt of input(text) *)
| EvStderr (text : string)                (* traceback.print_exc() *)
| EvChat (history : list PyVal)           (* a request to the model backend *)
| EvRun (tool : string) (bound : list (string * PyVal))
| EvConsole (text : string).              (* written by executed code *)

Record World `{Externals} : Type := {
  files : gmap string string;       (* the files of the working directory,
                                       each under the name the program gives
                                       it; two names of one file are not
                                       identified *)
  _EXEC_GLOBALS : gmap string Obj;  (* tools.py, line 15 *)
  trace : list Event;
  net : Net
}.

Section State.
Context `{Externals}.

Definition with_files (fs : gmap string string) (w : World) : World :=
  {| files := fs; _EXEC_GLOBALS := _EXEC_GLOBALS w; trace := trace w; net := net w |}.

Definition with_globals (g : gmap string Obj) (w : World) : World :=
  {| files := files w; _EXEC_GLOBALS := g; trace := trace w; net := net w |}.

Definition with_net (n : Net) (w : World) : World :=
  {| files := files w; _EXEC_GLOBALS := _EXEC_GLOBALS w; trace := trace w; net := n |}.

Definition emit (ev : Event) (w : World) : World :=
  {| files := files w; _EXEC_GLOBALS := _EXEC_GLOBALS w;
     trace := trace w ++ [ev]; net := net w |}.

Definition emit_all (evs : list Event) (w : World) : World :=
  {| files := files w; _EXEC_GLOBALS := _EXEC_GLOBALS w;
     trace := trace w ++ evs; net := net w |}.

(** Running an external collaborator that only touches the outside. *)
Definition outside {A} (f : Net -> Outcome A * Net) (w : World) : Outcome A * World :=
  let '(r, n) := f (net w) in (r, with_net n w).

End State.

(** ** tools.py *)

Section Tools.
Context `{Externals}.

(** *** [_ensure_exec_env] (lines 17-26) *)

Definition _ensure_exec_env (w : World) : World :=
  if decide (_EXEC_GLOBALS w = ∅)
  then with_globals (<["plt" := plt_module]> (<["pd" := pd_module]> ∅)) w
  else w.

(** *** [_sanitize_path_literals] (lines 28-43) *)

Definition is_quote (c : ascii) : bool :=
  Ascii.eqb c "'"%char || Ascii.eqb c dquote.

Definition is_raw_prefix (c : ascii) : bool :=
  Ascii.eqb c "r"%char || Ascii.eqb c "R"%char.

Fixpoint contains_char (c : ascii) (s : string) : bool :=
  match s with
  | EmptyString => false
  | String a s' => Ascii.eqb a c || contains_char c s'
  end.

(** [split_first c s]: the text before the first [c] in [s], and the text
    after it. *)
Fixpoint split_first (c : ascii) (s : string) : option (string * string) :=
  match s with
  | EmptyString => None
  | String a s' =>
      if Ascii.eqb a c then Some (EmptyString, s')
      else match split_first c s' with
           | Some (before, after) => Some (String a before, after)
           | None => None
           end
  end.

(** The pattern from the quote on: an opening quote [q], a body that runs
    lazily to the first backslash and from there lazily to the next [q].
    With DOTALL the dot matches every character, quotes included, so the
    first backslash after the opening quote and the first [q] after that
    backslash delimit the match whenever there is one. *)
Definition match_quoted (s : string) : option (ascii * string * string) :=
  match s with
  | String q s1 =>
      if is_quote q then
        match split_first bslash s1 with
        | Some (a, s2) =>
            match split_first q s2 with
            | Some (b, rest) => Some (q, a +:+ String bslash b, rest)
            | None => None
            end
        | None => None
        end
      else None
  | EmptyString => None
  end.

(** [body.replace(backslash, two backslashes)] *)
Fixpoint double_backslashes (s : string) : string :=
  match s with
  | EmptyString => EmptyString
  | String c s' =>
      if Ascii.eqb c bslash
      then String bslash (String bslash (double_backslashes s'))
      else String c (double_backslashes s')
  end.

(** A match of the whole pattern at the start of [s]: what [_repl] puts in
    its place, and the text after the match. *)
Definition match_here (s : string) : option (string * string) :=
  let plain :=
    match match_quoted s with
    | Some (q, body, rest) =>
        Some (String q (double_backslashes body +:+ String q EmptyString), rest)
    | None => None
    end in
  match s with
  | String p s1 =>
      if is_raw_prefix p then
        match match_quoted s1 with
        | Some (q, body, rest) =>
            Some (String p (String q (body +:+ String q EmptyString)), rest)
        | None => plain
        end
      else plain
  | EmptyString => None
  end.

(** [pattern.sub(_repl, s)]: leftmost matches, left to right, not
    overlapping.  [skip] counts the characters of the current match that
    are still to be passed over. *)
Fixpoint sub_path_literals (skip : nat) (s : string) : string :=
  match s with
  | EmptyString => EmptyString
  | String c s' =>
      match skip with
      | S k => sub_path_literals k s'
      | O =>
          match match_here s with
          | Some (repl, rest) =>
              repl +:+ sub_path_literals (String.length s' - String.length rest) s'
          | None => String c (sub_path_literals O s')
          end
      end
  end.

Definition _sanitize_path_literals (code : PyVal) : Outcome PyVal :=
  match code with
  | PStr s => Returned (PStr (sub_path_literals O s))
  | _ => raise_fault (PatternOnNonString code)
  end.

(** *** The tools (lines 49-100) *)

Definition search_web (query : PyVal) (w : World) : Outcome PyVal * World :=
  outside (ddg_news_run query) w.

Definition search_yf (query : PyVal) (w : World) : Outcome PyVal * World :=
  outside (ddg_news_run (PStr ("site:finance.yahoo.com " +:+ py_str query))) w.

Definition wikipedia_lookup (query : PyVal) (w : World) : Outcome PyVal * World :=
  outside (wikipedia_run 2 1000 query) w.

(** [open(filename, "a")]: the file exists afterwards. *)
Definition open_append (filename : string) (w : World) : World :=
  match files w !! filename with
  | Some _ => w
  | None => with_files (<[filename := EmptyString]> (files w)) w
  end.

(** [f.write(data)] on a file opened for appending. *)
Definition write_append (filename data : string) (w : World) : World :=
  match files w !! filename with
  | Some old => with_files (<[filename := old +:+ data]> (files w)) w
  | None => w
  end.

Definition save_text_to_file (data filename : PyVal) (w : World)
  : Outcome PyVal * World :=
  match filename with
  | PStr fn =>
      match open_append_denied fn (net w) with
      | Some e => (Raised e, w)
      | None =>
          let w1 := open_append fn w in
          match data with
          | PStr d =>
              (Returned (PStr ("Data successfully saved to " +:+ fn)),
               write_append fn d w1)
          | _ => (raise_fault (WriteNotStr data), w1)
          end
      end
  | PInt _ | PBool _ => outside (write_to_descriptor data filename) w
  | _ => (raise_fault (OpenBadPath filename), w)
  end.

Definition code_exec (code : PyVal) (w : World) : Outcome PyVal * World :=
  let w1 := _ensure_exec_env w in
  let safe_code :=
    match _sanitize_path_literals code with
    | Returned c => c
    | Raised _ => code
    end in
  let '(r, n) := py_exec safe_code (_EXEC_GLOBALS w1) (files w1) (net w1) in
  let w2 := with_net n
              (emit_all (map EvConsole (ex_console r))
                 (with_files (ex_files r) (with_globals (ex_env r) w1))) in
  match ex_exc r with
  | None => (Returned (PStr (ex_out r)), w2)
  | Some e =>
      if is_Exception (exc_class e)
      then (Returned (PStr (ex_out r +:+ "Error: " +:+ exc_msg e +:+ nl
                              +:+ format_exc e +:+ nl)), w2)
      else (Raised e, w2)
  end.

End Tools.

(** *** [TOOL_SPECS] (lines 106-196) *)

Definition string_property (description : string) : PyVal :=
  PDict [("type", PStr "string"); ("description", PStr description)].

Definition function_spec (name description : string) (required : list string)
    (properties : list (string * PyVal)) : list (string * PyVal) :=
  [("type", PStr "function");
   ("function",
    PDict [("name", PStr name);
           ("description", PStr description);
           ("parameters",
            PDict [("type", PStr "object");
                   ("required", PList (map PStr required));
                   ("properties", PDict properties)])])].

Definition TOOL_SPECS : list (list (string * PyVal)) :=
  [ function_spec "search_web"
      "Buscar en la web (noticias) para obtener información actual."
      ["query"]
      [("query", string_property "tópico o consulta a buscar en la web")];
    function_spec "search_yf"
      "Buscar noticias financieras (sólo Yahoo Finance)."
      ["query"]
      [("query", string_property "tópico financiero a buscar")];
    function_spec "wikipedia_lookup"
      "Consulta Wikipedia para obtener resúmenes de artículos."
      ["query"]
      [("query", string_property "tema a buscar en Wikipedia")];
    function_spec "save_text_to_file"
      "Guarda texto en un archivo en el servidor."
      ["data"]
      [("data", string_property "texto a guardar");
       ("filename", string_property "nombre de archivo (opcional)")];
    function_spec "code_exec"
      "Ejecuta código Python y devuelve la salida de consola."
      ["code"]
      [("code", string_property "código Python a ejecutar")] ].

(** The names a descriptor marks as required: the strings of
    [spec["function"]["parameters"]["required"]]. *)
Definition spec_name (spec : list (string * PyVal)) : option string :=
  match dict_lookup "function" spec with
  | Some (PDict f) =>
      match dict_lookup "name" f with Some (PStr n) => Some n | _ => None end
  | _ => None
  end.

Definition spec_required (spec : list (string * PyVal)) : list string :=
  match dict_lookup "function" spec with
  | Some (PDict f) =>
      match dict_lookup "parameters" f with
      | Some (PDict p) =>
          match dict_lookup "required" p with
          | Some (PList rs) =>
              flat_map (fun r => match r with PStr k => [k] | _ => [] end) rs
          | _ => []
          end
      | _ => []
      end
  | _ => []
  end.

Definition schema_of (name : string) : option (list (string * PyVal)) :=
  List.find (fun spec => match spec_name spec with
                         | Some n => String.eqb n name
                         | None => false
                         end) TOOL_SPECS.

(** *** Calling a Python function with keyword arguments *)

Section Registry.
Context `{Externals}.

Record PyFunc : Type := {
  fn_name : string;
  fn_params : list (string * option PyVal);   (* parameter and its default *)
  fn_body : list (string * PyVal) -> World -> Outcome PyVal * World
}.

(** The value bound to parameter [p]. *)
Definition arg (bound : list (string * PyVal)) (p : string) : PyVal :=
  default PNone (dict_lookup p bound).

Definition is_param (f : PyFunc) (k : string) : bool :=
  existsb (String.eqb k) (map fst (fn_params f)).

Definition lacks (kvs : list (string * PyVal)) (p : string * option PyVal) : bool :=
  match dict_lookup (fst p) kvs, snd p with
  | None, None => true
  | _, _ => false
  end.

Definition bind_param (kvs : list (string * PyVal)) (p : string * option PyVal)
  : string * PyVal :=
  (fst p, match dict_lookup (fst p) kvs with
          | Some v => v
          | None => default PNone (snd p)
          end).

(** The call of [f] with the keywords of [args], up to the entry of the
    body: a keyword that is no parameter is rejected first, then a
    parameter without value and without default. *)
Definition bind_kwargs (f : PyFunc) (args : PyVal)
  : Outcome (list (string * PyVal)) :=
  match args with
  | PDict kvs =>
      match List.find (fun kv => negb (is_param f (fst kv))) kvs with
      | Some kv => raise_fault (UnexpectedKeyword (fn_name f) (fst kv))
      | None =>
          match List.filter (lacks kvs) (fn_params f) with
          | [] => Returned (map (bind_param kvs) (fn_params f))
          | missing => raise_fault (MissingRequired (fn_name f) (map fst missing))
          end
      end
  | _ => raise_fault (KwargsNotMapping (fn_name f) args)
  end.

(** *** [TOOL_FUNCS] (lines 199-205) *)

Definition search_web_fn : PyFunc :=
  {| fn_name := "search_web"; fn_params := [("query", None)];
     fn_body := fun b => search_web (arg b "query") |}.

Definition search_yf_fn : PyFunc :=
  {| fn_name := "search_yf"; fn_params := [("query", None)];
     fn_body := fun b => search_yf (arg b "query") |}.

Definition wikipedia_lookup_fn : PyFunc :=
  {| fn_name := "wikipedia_lookup"; fn_params := [("query", None)];
     fn_body := fun b => wikipedia_lookup (arg b "query") |}.

Definition save_text_to_file_fn : PyFunc :=
  {| fn_name := "save_text_to_file";
     fn_params := [("data", None); ("filename", Some (PStr "research_output.txt"))];
     fn_body := fun b => save_text_to_file (arg b "data") (arg b "filename") |}.

Definition code_exec_fn : PyFunc :=
  {| fn_name := "code_exec"; fn_params := [("code", None)];
     fn_body := fun b => code_exec (arg b "code") |}.

Definition TOOL_FUNCS : gmap string PyFunc :=
  <["search_web" := search_web_fn]>
  (<["search_yf" := search_yf_fn]>
  (<["wikipedia_lookup" := wikipedia_lookup_fn]>
  (<["save_text_to_file" := save_text_to_file_fn]>
  (<["code_exec" := code_exec_fn]> ∅)))).

(** [TOOL_FUNCS.get(name)]: the key is hashed first; every key of the
    registry is a [str], so no other value finds an entry. *)
Definition TOOL_FUNCS_get (name : PyVal) : Outcome (option PyFunc) :=
  match name with
  | PStr n => Returned (TOOL_FUNCS !! n)
  | PList _ | PDict _ => raise_fault (Unhashable name)
  | _ => Returned None
  end.

End Registry.

(** ** main.py *)

(** *** [build_tools_text] and [SYSTEM_PROMPT] (lines 68-85) *)

Section Prompt.
Context `{Externals}.

Definition tool_line (t : list (string * PyVal)) : list string :=
  match dict_lookup "function" t with
  | Some (PDict f) =>
      let name := default PNone (dict_lookup "name" f) in
      let desc := default (PStr EmptyString) (dict_lookup "description" f) in
      ["- " +:+ py_str name +:+ ": " +:+ py_str desc]
  | _ => []
  end.

Definition build_tools_text (specs : list (list (string * PyVal))) : string :=
  String.concat nl (flat_map tool_line specs).

Definition TOOLS_TEXT : string := build_tools_text TOOL_SPECS.

Definition SYSTEM_PROMPT : string :=
  "Eres un asistente experto con acceso a herramientas para buscar información actual y ejecutar código Python."
  +:+ nl +:+
  "Decide con criterio cuándo usar herramientas. Si no es necesario, responde directamente y en español."
  +:+ nl +:+ nl +:+
  "Available tools:" +:+ nl +:+ TOOLS_TEXT +:+ nl.

End Prompt.

(** *** [call_agent] and [execute_tool_call] (lines 88-116) *)

Section Dispatch.
Context `{Externals}.

Definition call_agent (messages : list PyVal) (w : World) : Outcome PyVal * World :=
  let '(r, w1) := outside (ollama_chat messages) (emit (EvChat messages) w) in
  match r with
  | Returned response => (Returned response, w1)
  | Raised e =>
      if is_Exception (exc_class e)
      then (Raised e,
            emit (EvPrint ("[ERROR] Fallo en la llamada a ollama.chat: " +:+ exc_msg e)) w1)
      else (Raised e, w1)
  end.

Definition malformed_call_error : string :=
  "[ERROR] tool_call mal formada: falta 'name' o 'arguments'.".

Definition no_implementation_error (name : PyVal) : string :=
  "[ERROR] No hay implementación para la herramienta '" +:+ py_str name +:+ "'.".

Definition tool_failure_error (name : PyVal) (e : Exc) : string :=
  "[ERROR ejecutando " +:+ py_str name +:+ "] " +:+ exc_msg e +:+ nl +:+ format_exc e.

Definition execution_notice (name args : PyVal) : string :=
  " [·] Ejecutando tool: " +:+ py_str name +:+ " con args=" +:+ py_str args.

(** Lines 100-102: the two subscriptions of the first [try]. *)
Definition read_call (call : PyVal) : Outcome (PyVal * PyVal) :=
  f ← py_getitem call "function";
  name ← py_getitem f "name";
  f' ← py_getitem call "function";
  args ← py_getitem f' "arguments";
  Returned (name, args).

(** Lines 115-116: [except Exception as e] of the second [try]. *)
Definition on_tool_exception (name : PyVal) (e : Exc) (w : World)
  : Outcome string * World :=
  if is_Exception (exc_class e)
  then (Returned (tool_failure_error name e), w)
  else (Raised e, w).

(** Line 112, [func] called with the keywords of [args]: the arguments
    are bound, then the body runs. *)
Definition invoke (func : PyFunc) (args : PyVal) (w : World) : Outcome PyVal * World :=
  match bind_kwargs func args with
  | Raised e => (Raised e, w)
  | Returned bound => fn_body func bound (emit (EvRun (fn_name func) bound) w)
  end.

Definition execute_tool_call (call : PyVal) (w : World) : Outcome string * World :=
  match read_call call with
  | Raised e =>
      if is_KeyError (exc_class e)
      then (Returned malformed_call_error, w)
      else (Raised e, w)
  | Returned (name, args) =>
      match TOOL_FUNCS_get name with
      | Raised e => (Raised e, w)
      | Returned None => (Returned (no_implementation_error name), w)
      | Returned (Some func) =>
          match invoke func args (emit (EvPrint (execution_notice name args)) w) with
          | (Returned result, w2) => (Returned (py_str result), w2)
          | (Raised e, w2) => on_tool_exception name e w2
          end
      end
  end.

End Dispatch.

(** *** [main] from line 134 on: the conversation loop *)

(** The loop is a state machine.  [AwaitingUser] stands at line 138,
    [ModelTurn] at line 150; [Ended] is the state after a [break] of the
    outer loop, [Crashed] the one after an exception that no handler of
    [main] catches. *)
Inductive Phase : Type := AwaitingUser | ModelTurn | Ended | Crashed.

Record Session `{Externals} : Type := {
  phase : Phase;
  messages : list PyVal;
  tools_executed : bool;
  stdin : list string;     (* the lines input() will still deliver *)
  world : World
}.

Section Loop.
Context `{Externals}.

Definition system_message : PyVal :=
  PDict [("role", PStr "system"); ("content", PStr SYSTEM_PROMPT)].

Definition user_message (user_input : string) : PyVal :=
  PDict [("role", PStr "user"); ("content", PStr user_input)].

Definition tool_message (tool_output : string) : PyVal :=
  PDict [("role", PStr "tool"); ("content", PStr tool_output);
         ("tool_call_id", PStr "dummy_id")].

Definition assistant_message (assistant_response : PyVal) : PyVal :=
  PDict [("role", PStr "assistant"); ("content", assistant_response)].

Definition start (lines : list string) (w : World) : Session :=
  {| phase := AwaitingUser; messages := [system_message];
     tools_executed := false; stdin := lines; world := w |}.

(** Lines 180-186: what the handlers of the outer [try] do with an
    exception; anything outside [Exception] other than
    [KeyboardInterrupt] leaves [main]. *)
Definition leave_loop (e : Exc) (msgs : list PyVal) (flag : bool)
    (lines : list string) (w : World) : Session :=
  if is_KeyboardInterrupt (exc_class e) then
    {| phase := Ended; messages := msgs; tools_executed := flag; stdin := lines;
       world := emit (EvPrint (nl +:+ "[Interrumpido por el usuario]")) w |}
  else if is_Exception (exc_class e) then
    {| phase := Ended; messages := msgs; tools_executed := flag; stdin := lines;
       world := emit (EvStderr (format_exc e))
                  (emit (EvPrint ("[ERROR] " +:+ exc_msg e)) w) |}
  else
    {| phase := Crashed; messages := msgs; tools_executed := flag; stdin := lines;
       world := w |}.

Definition is_exit_word (user_input : string) : bool :=
  String.eqb (str_lower user_input) "quit" || String.eqb (str_lower user_input) "exit".

(** Lines 138-146. *)
Definition await_user (s : Session) : Session :=
  let w := emit (EvPrompt " > Inserte su consulta aquí: ") (world s) in
  match stdin s with
  | [] =>
      leave_loop {| exc_class := fault_class EndOfInput; exc_msg := fault_msg EndOfInput |}
        (messages s) (tools_executed s) [] w
  | line :: rest =>
      let user_input := str_strip line in
      if String.eqb user_input EmptyString || is_exit_word user_input then
        {| phase := Ended; messages := messages s;
           tools_executed := tools_executed s; stdin := rest; world := w |}
      else
        {| phase := ModelTurn; messages := messages s ++ [user_message user_input];
           tools_executed := false; stdin := rest; world := w |}
  end.

(** Lines 157-164: the [for] loop.  The list is extended in place, so the
    messages appended before an exception stay. *)
Fixpoint run_tool_calls (calls : list PyVal) (msgs : list PyVal) (w : World)
  : option Exc * list PyVal * World :=
  match calls with
  | [] => (None, msgs, w)
  | call :: rest =>
      match execute_tool_call call w with
      | (Returned tool_output, w1) =>
          run_tool_calls rest (msgs ++ [tool_message tool_output]) w1
      | (Raised e, w1) => (Some e, msgs, w1)
      end
  end.

(** [response.get("message", {}).get(k, dflt)] *)
Definition response_field (response : PyVal) (k : string) (dflt : PyVal)
  : Outcome PyVal :=
  m ← py_get response "message" (PDict []);
  py_get m k dflt.

(** Lines 150-178: one pass through the body of the inner loop. *)
Definition model_turn (s : Session) : Session :=
  let msgs := messages s in
  let flag := tools_executed s in
  let lines := stdin s in
  match call_agent msgs (world s) with
  | (Raised e, w1) => leave_loop e msgs flag lines w1
  | (Returned response, w1) =>
      match response_field response "tool_calls" (PList []) with
      | Raised e => leave_loop e msgs flag lines w1
      | Returned tool_calls =>
          if truthy tool_calls then
            match py_iter tool_calls with
            | Raised e => leave_loop e msgs true lines w1
            | Returned calls =>
                match run_tool_calls calls msgs w1 with
                | (Some e, msgs', w2) => leave_loop e msgs' true lines w2
                | (None, msgs', w2) =>
                    {| phase := ModelTurn; messages := msgs';
                       tools_executed := true; stdin := lines; world := w2 |}
                end
            end
          else
            match response_field response "content" (PStr EmptyString) with
            | Raised e => leave_loop e msgs flag lines w1
            | Returned assistant_response =>
                if truthy assistant_response then
                  {| phase := AwaitingUser;
                     messages := msgs ++ [assistant_message assistant_response];
                     tools_executed := flag; stdin := lines;
                     world := emit (EvPrint (nl +:+ py_str assistant_response +:+ nl)) w1 |}
                else
                  {| phase := AwaitingUser; messages := msgs;
                     tools_executed := flag; stdin := lines;
                     world := emit (EvPrint "(sin respuesta del modelo)") w1 |}
            end
      end
  end.

Definition step (s : Session) : Session :=
  match phase s with
  | AwaitingUser => await_user s
  | ModelTurn => model_turn s
  | Ended | Crashed => s
  end.

Fixpoint run (n : nat) (s : Session) : Session :=
  match n with
  | O => s
  | S k => run k (step s)
  end.

(** [main] from line 134 on, followed for [fuel] steps.  (The choice of
    the model, lines 122-131, precedes the session and touches neither
    the history nor the tools.) *)
Definition main (fuel : nat) (lines : list string) (w : World) : Session :=
  run fuel (start lines w).

End Loop.

(** ** Vocabulary of the properties *)

(** A request in the shape the backend documents, and a response that
    carries requests and text. *)
Definition request (name : string) (args : PyVal) : PyVal :=
  PDict [("function", PDict [("name", PStr name); ("arguments", args)])].

Definition reply (tool_calls : list PyVal) (content : string) : PyVal :=
  PDict [("message", PDict [("role", PStr "assistant"); ("content", PStr content);
                            ("tool_calls", PList tool_calls)])].

(** A request dict without a [function] entry, or whose [function] dict
    has no [name] or no [arguments] entry. *)
Definition lacks_name_or_arguments (call : PyVal) : bool :=
  match call with
  | PDict kvs =>
      match dict_lookup "function" kvs with
      | None => true
      | Some (PDict f) =>
          match dict_lookup "name" f, dict_lookup "arguments" f with
          | Some _, Some _ => false
          | _, _ => true
          end
      | Some _ => false
      end
  | _ => false
  end.

(** The entry [k] of the [function] dict of a request, if the request is
    a dict that has such a dict and the dict has such an entry. *)
Definition request_field (call : PyVal) (k : string) : option PyVal :=
  match call with
  | PDict kvs =>
      match dict_lookup "function" kvs with
      | Some (PDict f) => dict_lookup k f
      | _ => None
      end
  | _ => None
  end.



Definition has_key (k : string) (v : PyVal) : bool :=
  match v with
  | PDict kvs => match dict_lookup k kvs with Some _ => true | None => false end
  | _ => false
  end.

(** Every argument that the descriptor of tool [n] marks as required is
    among the arguments of the request. *)
Definition required_arguments_present (n : string) (args : PyVal) : bool :=
  match schema_of n with
  | Some spec => forallb (fun k => has_key k args) (spec_required spec)
  | None => true
  end.

(** The requests sent to the model backend and the tools whose body was
    entered, read off a trace. *)
Definition model_calls (t : list Event) : list (list PyVal) :=
  flat_map (fun ev => match ev with EvChat history => [history] | _ => [] end) t.

Definition tools_run (t : list Event) : list string :=
  flat_map (fun ev => match ev with EvRun tool _ => [tool] | _ => [] end) t.

(** The names that [TOOL_SPECS] advertises to the model. *)
Definition advertised_names : list string := omap spec_name TOOL_SPECS.

Section Vocabulary.
Context `{Externals}.

(** What [execute_tool_call] adds to the trace. *)
Definition dispatch_events (call : PyVal) (w : World) : list Event :=
  drop (length (trace w)) (trace (snd (execute_tool_call call w))).

(** The validation as the specification words it: a request that names no
    registered tool, or lacks an argument its descriptor requires, gets
    no further than the check; line 111, which announces the invocation of
    line 112, is not reached. *)
Definition validated_before_dispatch : Prop :=
  forall (n : string) (args : PyVal) (w : World),
    TOOL_FUNCS !! n = None \/ required_arguments_present n args = false ->
    dispatch_events (request n args) w = [].


(** The namespace that the code of a [code_exec] call starts in, what
    [exec] makes of it, and the same along a sequence of calls. *)
Definition exec_namespace (w : World) : gmap string Obj :=
  _EXEC_GLOBALS (_ensure_exec_env w).

Definition exec_result (code : PyVal) (w : World) : ExecResult Obj :=
  let safe_code :=
    match _sanitize_path_literals code with
    | Returned c => c
    | Raised _ => code
    end in
  fst (py_exec safe_code (exec_namespace w) (files (_ensure_exec_env w))
         (net (_ensure_exec_env w))).

Fixpoint exec_all (codes : list PyVal) (w : World) : World :=
  match codes with
  | [] => w
  | code :: rest => exec_all rest (snd (code_exec code w))
  end.

Fixpoint namespaces_seen (codes : list PyVal) (w : World) : list (gmap string Obj) :=
  match codes with
  | [] => []
  | code :: rest => exec_namespace w :: namespaces_seen rest (snd (code_exec code w))
  end.

Fixpoint results_of (codes : list PyVal) (w : World) : list (ExecResult Obj) :=
  match codes with
  | [] => []
  | code :: rest => exec_result code w :: results_of rest (snd (code_exec code w))
  end.

Fixpoint outcomes_of (codes : list PyVal) (w : World) : list (Outcome PyVal) :=
  match codes with
  | [] => []
  | code :: rest => fst (code_exec code w) :: outcomes_of rest (snd (code_exec code w))
  end.

Definition ends_within_Exception (r : ExecResult Obj) : bool :=
  match ex_exc r with
  | Some e => is_Exception (exc_class e)
  | None => true
  end.

Definition binds (x : string) (v : Obj) (g : gmap string Obj) : Prop :=
  g !! x = Some v.

End Vocabulary.

(** ** A concrete environment for the closed examples *)

Module Demo.

(** The backend answers from a script; interpreter objects are integers;
    [exec] understands five programs. *)
Definition demo_exec (code : PyVal) (g : gmap string Z) (fs : gmap string string)
    (n : list PyVal) : ExecResult Z * list PyVal :=
  let g := <["__builtins__" := 0%Z]> g in
  let ended (g' : gmap string Z) (out : string) (exc : option Exc) :=
    {| ex_env := g'; ex_out := out; ex_exc := exc; ex_files := fs; ex_console := [] |} in
  match code with
  | PStr "x = 41" => (ended (<["x" := 41%Z]> g) EmptyString None, n)
  | PStr "print(x)" =>
      match g !! "x" with
      | Some v => (ended g (NilZero.string_of_int (Z.to_int v) +:+ nl) None, n)
      | None =>
          (ended g EmptyString
             (Some {| exc_class := OtherException "NameError";
                      exc_msg := "name 'x' is not defined" |}), n)
      end
  | PStr "y = 1; 1/0" =>
      (ended (<["y" := 1%Z]> g) EmptyString
         (Some {| exc_class := OtherException "ZeroDivisionError";
                  exc_msg := "division by zero" |}), n)
  | PStr "raise SystemExit" =>
      (ended g EmptyString (Some {| exc_class := SystemExit; exc_msg := EmptyString |}), n)
  | PStr "open('notes.txt', 'w')" =>
      ({| ex_env := g; ex_out := EmptyString; ex_exc := None;
          ex_files := <["notes.txt" := EmptyString]> fs; ex_console := [] |}, n)
  | _ =>
      (ended g EmptyString
         (Some {| exc_class := OtherException "SyntaxError";
                  exc_msg := "invalid syntax" |}), n)
  end.

Definition demo_chat (history : list PyVal) (script : list PyVal)
  : Outcome PyVal * list PyVal :=
  match script with
  | response :: rest => (Returned response, rest)
  | [] => (Raised {| exc_class := OtherException "ConnectionError";
                     exc_msg := "backend unreachable" |}, [])
  end.

#[export] Instance demo : Externals := {|
  Net := list PyVal;
  Obj := Z;
  pd_module := 1%Z;
  plt_module := 2%Z;
  fault_msg := fun _ => "fault";
  format_exc := fun e => "Traceback (most recent call last): " +:+ exc_msg e +:+ nl;
  repr_str := fun s => "'" +:+ s +:+ "'";
  str_strip := fun s => s;
  str_lower := fun s => s;
  ddg_news_run := fun q n => (Returned (PStr ("news for " +:+ match q with PStr s => s | _ => "?" end)), n);
  wikipedia_run := fun _ _ q n => (Returned (PStr "summary"), n);
  open_append_denied := fun fn _ =>
    if String.eqb fn EmptyString
    then Some {| exc_class := OSError; exc_msg := "No such file or directory" |}
    else None;
  write_to_descriptor := fun _ _ n =>
    (Raised {| exc_class := OSError; exc_msg := "Bad file descriptor" |}, n);
  py_exec := demo_exec;
  ollama_chat := demo_chat
|}.

Definition world0 (script : list PyVal) : World :=
  {| files := ∅; _EXEC_GLOBALS := ∅; trace := []; net := script |}.

(** A request whose [function] entry is a string, and one whose [name]
    is a list. *)
Definition string_function_call : PyVal :=
  PDict [("function", PStr "search_web")].


Definition define_x : PyVal := request "code_exec" (PDict [("code", PStr "x = 41")]).
Definition print_x : PyVal := request "code_exec" (PDict [("code", PStr "print(x)")]).

(** A session of one user line against a scripted backend. *)
Definition session (script : list PyVal) : Session :=
  start ["hola"] (world0 script).

Definition waiting_for_model (script : list PyVal) : Session :=
  {| phase := ModelTurn; messages := [system_message; user_message "hola"];
     tools_executed := false; stdin := []; world := world0 script |}.

End Demo.

(** ** main.py, lines 18-66 and 119-131: the model name and its choice *)

(** What the start of the program writes and whom it asks.  A [print]
    writes its text followed by its [end] (a newline unless given). *)
Inductive BootEvent : Type :=
| BootWrite (text : string)     (* characters written to stdout *)
| BootProbe (model : string).   (* a probe of that model sent to the backend *)

Record Boot `{Externals} : Type := {
  boot_trace : list BootEvent;
  boot_net : Net
}.

Definition probes_of (t : list BootEvent) : list string :=
  flat_map (fun ev => match ev with BootProbe m => [m] | _ => [] end) t.

Definition written (t : list BootEvent) : string :=
  String.concat EmptyString
    (flat_map (fun ev => match ev with BootWrite s => [s] | _ => [] end) t).

(** How [main] gets past its start: [sys.exit(code)], or a model. *)
Inductive Startup : Type :=
| Exit (code : Z)
| Chosen (model : string).

Section Startup.
Context `{Externals}.

(** [str.isdigit], and [ollama.chat(model=name, messages=[{"role":
    "user", "content": "Hola"}], stream=False)]. *)
Variable str_isdigit : string -> bool.
Variable ollama_probe : string -> Net -> Outcome PyVal * Net.

Definition boot_write (text : string) (b : Boot) : Boot :=
  {| boot_trace := boot_trace b ++ [BootWrite text]; boot_net := boot_net b |}.

(** [print(text)] *)
Definition boot_print (text : string) (b : Boot) : Boot :=
  boot_write (text +:+ nl) b.

(** Lines 20-22. *)
Definition _looks_like_model_name (name : string) : bool :=
  negb (String.eqb name EmptyString)
  && negb (str_isdigit name)
  && negb (existsb (fun ch => contains_char ch name) ["/"%char; bslash; " "%char]).

(** Lines 18 and 24-26: the value of the global [MODEL] once the module is
    loaded, from the environment variable of that name if it is set. *)
Definition MODEL (env_model : option string) (b : Boot) : string * Boot :=
  let name := default "qwen3:8b" env_model in
  if _looks_like_model_name name then (name, b)
  else ("qwen3:8b",
        boot_print ("[WARN] Ignorando MODEL=" +:+ repr_str name
                    +:+ " de las variables de entorno, no parece válido. Usando 'qwen3:8b'.") b).

(** Lines 29-40. *)
Definition try_model_probe (model_name : string) (b : Boot) : Outcome bool * Boot :=
  if String.eqb model_name EmptyString then (Returned false, b)
  else
    let '(r, n) := ollama_probe model_name (boot_net b) in
    let b1 := {| boot_trace := boot_trace b ++ [BootProbe model_name]; boot_net := n |} in
    match r with
    | Returned _ => (Returned true, b1)
    | Raised e =>
        if is_Exception (exc_class e)
        then (Returned false, boot_print ("   -> probe falló: " +:+ exc_msg e) b1)
        else (Raised e, b1)
    end.

(** Lines 44-55: the [for] loop, with the list [seen] it extends. *)
Fixpoint select_from (candidates seen : list string) (b : Boot)
  : Outcome (option string) * Boot :=
  match candidates with
  | [] => (Returned None, b)
  | c :: rest =>
      if String.eqb c EmptyString || existsb (String.eqb c) seen
      then select_from rest seen b
      else
        match try_model_probe c
                (boot_write ("[Comprobando modelo] " +:+ c +:+ "... ") b) with
        | (Returned true, b1) => (Returned (Some c), boot_print "OK" b1)
        | (Returned false, b1) =>
            select_from rest (seen ++ [c]) (boot_print "NO disponible" b1)
        | (Raised e, b1) => (Raised e, b1)
        end
  end.

(** Lines 42-55. *)
Definition select_working_model (candidates : list string) (b : Boot)
  : Outcome (option string) * Boot :=
  select_from candidates [] b.

(** Lines 57-65. *)
Definition print_model_help (model_name : string) (b : Boot) : Boot :=
  fold_left (fun acc line => boot_print line acc)
    [ nl +:+ "[ERROR] No se encontró ningún modelo válido.";
      "   Sugerencias:";
      "   - Asegúrate de que Ollama está en ejecución.";
      "   - Usa `ollama list` para ver los modelos disponibles.";
      "   - Descarga un modelo con `ollama pull qwen3:8b`.";
      "   - Define la variable de entorno MODEL (ej: MODEL=" +:+ model_name +:+ ").";
      EmptyString ] b.

Definition model_candidates (model : string) : list string :=
  [model; "qwen3:8b"; "deepseek-r1:8b"; "qwen2.5"; "llama3.1:8b"].

(** Lines 119-131: [main] up to the first prompt. *)
Definition main_startup (model : string) (b : Boot) : Outcome Startup * Boot :=
  match select_working_model (model_candidates model) b with
  | (Raised e, b1) => (Raised e, b1)
  | (Returned chosen, b1) =>
      match chosen with
      | Some c =>
          if String.eqb c EmptyString
          then (Returned (Exit 1), print_model_help model b1)
          else (Returned (Chosen c),
                boot_print "Escribe tu consulta. (Escribe 'quit' para salir.)"
                  (boot_print (nl +:+ "Usando modelo: " +:+ c +:+ nl) b1))
      | None => (Returned (Exit 1), print_model_help model b1)
      end
  end.

End Startup.

(** ** Further vocabulary *)

Fixpoint without_backslashes (s : string) : string :=
  match s with
  | EmptyString => EmptyString
  | String c s' =>
      if Ascii.eqb c bslash then without_backslashes s'
      else String c (without_backslashes s')
  end.

Fixpoint string_drop (n : nat) (s : string) : string :=
  match n, s with
  | S k, String _ s' => string_drop k s'
  | _, _ => s
  end.

Definition is_str (v : PyVal) : bool :=
  match v with PStr _ => true | _ => false end.

(** The role of a message of the history. *)
Definition role_of (message : PyVal) : option string :=
  match message with
  | PDict kvs =>
      match dict_lookup "role" kvs with
      | Some (PStr r) => Some r
      | _ => None
      end
  | _ => None
  end.

Definition is_turn_message (message : PyVal) : bool :=
  match role_of message with
  | Some r => String.eqb r "user" || String.eqb r "assistant" || String.eqb r "tool"
  | None => false
  end.

(** The parameters that a descriptor lists under [properties]. *)
Definition spec_properties (spec : list (string * PyVal)) : list string :=
  match dict_lookup "function" spec with
  | Some (PDict f) =>
      match dict_lookup "parameters" f with
      | Some (PDict p) =>
          match dict_lookup "properties" p with
          | Some (PDict props) => map fst props
          | _ => []
          end
      | _ => []
      end
  | _ => []
  end.

Section FurtherVocabulary.
Context `{Externals}.

Definition param_names (f : PyFunc) : list string := map fst (fn_params f).

Definition params_without_default (f : PyFunc) : list string :=
  map fst (List.filter (fun p => match snd p with None => true | Some _ => false end)
             (fn_params f)).

(** Every history sent to the model so far starts with the system prompt
    and is an initial segment of the history held now. *)
Definition histories_sent_are_prefixes (s : Session) : Prop :=
  head (messages s) = Some system_message
  /\ Forall (fun h => h `prefix_of` messages s /\ head h = Some system_message)
            (model_calls (trace (world s))).

End FurtherVocabulary.

Module DemoStartup.
Import Demo.

Fixpoint all_digits (s : string) : bool :=
  match s with
  | EmptyString => true
  | String c s' => (48 <=? nat_of_ascii c)%nat && (nat_of_ascii c <=? 57)%nat && all_digits s'
  end.

Definition demo_isdigit (s : string) : bool :=
  negb (String.eqb s EmptyString) && all_digits s.

(** Only [qwen2.5] answers. *)
Definition demo_probe (name : string) (n : list PyVal) : Outcome PyVal * list PyVal :=
  if String.eqb name "qwen2.5" then (Returned (PDict []), n)
  else (Raised {| exc_class := OtherException "ResponseError";
                  exc_msg := "model not found" |}, n).

(** Nothing answers. *)
Definition dead_probe (name : string) (n : list PyVal) : Outcome PyVal * list PyVal :=
  (Raised {| exc_class := OtherException "ConnectionError";
             exc_msg := "backend unreachable" |}, n).

Definition boot0 : Boot := {| boot_trace := []; boot_net := [] |}.

End DemoStartup.

(** The environment of [Demo] with a backend call that the user
    interrupts. *)
Module DemoInterrupted.

Definition interrupted_chat (history : list PyVal) (script : list PyVal)
  : Outcome PyVal * list PyVal :=
  (Raised {| exc_class := KeyboardInterrupt; exc_msg := EmptyString |}, script).

Definition interrupted : Externals := {|
  Net := list PyVal;
  Obj := Z;
  pd_module := 1%Z;
  plt_module := 2%Z;
  fault_msg := @fault_msg Demo.demo;
  format_exc := @format_exc Demo.demo;
  repr_str := @repr_str Demo.demo;
  str_strip := @str_strip Demo.demo;
  str_lower := @str_lower Demo.demo;
  ddg_news_run := @ddg_news_run Demo.demo;
  wikipedia_run := @wikipedia_run Demo.demo;
  open_append_denied := @open_append_denied Demo.demo;
  write_to_descriptor := @write_to_descriptor Demo.demo;
  py_exec := Demo.demo_exec;
  ollama_chat := interrupted_chat
|}.

Definition waiting : @Session interrupted :=
  @Build_Session interrupted ModelTurn
    [@system_message interrupted; user_message "hola"] false []
    (@Build_World interrupted ∅ ∅ [] []).

End DemoInterrupted.

(** * Properties *)

(** ** The registry *)

Section RegistryFacts.
Context `{Externals}.

Lemma TOOL_FUNCS_lookup_Some (n : string) (func : PyFunc) :
  TOOL_FUNCS !! n = Some func ->
  (n = "search_web" /\ func = search_web_fn)
  \/ (n = "search_yf" /\ func = search_yf_fn)
  \/ (n = "wikipedia_lookup" /\ func = wikipedia_lookup_fn)
  \/ (n = "save_text_to_file" /\ func = save_text_to_file_fn)
  \/ (n = "code_exec" /\ func = code_exec_fn).
Proof.
  unfold TOOL_FUNCS. intros Hn.
  repeat (apply lookup_insert_Some in Hn as [[<- <-] | [_ Hn]]; [tauto |]).
  rewrite lookup_empty in Hn. discriminate.
Qed.

Lemma TOOL_FUNCS_fn_name (n : string) (func : PyFunc) :
  TOOL_FUNCS !! n = Some func -> fn_name func = n.
Proof.
  intros Hn. apply TOOL_FUNCS_lookup_Some in Hn.
  destruct Hn as [[-> ->] | [[-> ->] | [[-> ->] | [[-> ->] | [-> ->]]]]]; reflexivity.
Qed.

Lemma advertised_names_eq :
  advertised_names =
  ["search_web"; "search_yf"; "wikipedia_lookup"; "save_text_to_file"; "code_exec"].
Proof. reflexivity. Qed.

Lemma advertised_is_registered (n : string) :
  n ∈ advertised_names ->
  exists func, TOOL_FUNCS_get (PStr n) = Returned (Some func) /\ fn_name func = n.
Proof.
  rewrite advertised_names_eq. intros Hin.
  repeat (apply elem_of_cons in Hin as [-> | Hin];
          [eexists; split; [reflexivity | reflexivity] |]).
  apply elem_of_nil in Hin. contradiction.
Qed.

End RegistryFacts.

(** ** [execute_tool_call] *)

Section DispatchFacts.
Context `{Externals}.

Lemma read_call_dict (kvs f : list (string * PyVal)) (name args : PyVal) :
  dict_lookup "function" kvs = Some (PDict f) ->
  dict_lookup "name" f = Some name ->
  dict_lookup "arguments" f = Some args ->
  read_call (PDict kvs) = Returned (name, args).
Proof.
  intros Hf Hn Ha. unfold read_call, py_getitem. cbn.
  rewrite Hf. cbn. rewrite Hn. cbn. rewrite Ha. reflexivity.
Qed.

Lemma read_call_request (n : string) (args : PyVal) :
  read_call (request n args) = Returned (PStr n, args).
Proof. reflexivity. Qed.

Lemma fault_is_Exception (f : Fault) : is_Exception (fault_class f) = true.
Proof. destruct f; reflexivity. Qed.

(** The missing keys that the guard of line 103 covers.  A request
    without a [function] entry, or whose [function] dict lacks [name] or
    [arguments], gets the fixed malformed-call string; no exception
    leaves [execute_tool_call], and the world is as before: no notice is
    printed and no tool runs. *)
Theorem execute_tool_call_missing_field (call : PyVal) (w : World) :
  lacks_name_or_arguments call = true ->
  execute_tool_call call w =
    (Returned "[ERROR] tool_call mal formada: falta 'name' o 'arguments'.", w).
Proof.
  destruct call as [ | | | | | kvs]; cbn; try discriminate.
  unfold execute_tool_call, read_call, py_getitem. cbn.
  destruct (dict_lookup "function" kvs) as [[ | | | | | f] | ]; cbn;
    try discriminate; [| reflexivity].
  destruct (dict_lookup "name" f); cbn; [| reflexivity].
  destruct (dict_lookup "arguments" f); cbn; [discriminate | reflexivity].
Qed.

(** C3. Every name that the descriptors advertise resolves in the registry
    to the function of that name; and a request that names a tool absent
    from the registry gets the no-implementation string for that name,
    with no exception and the world as before. *)
Theorem registry_resolves_or_reports_no_implementation :
  (forall n : string,
      n ∈ advertised_names ->
      exists func, TOOL_FUNCS_get (PStr n) = Returned (Some func) /\ fn_name func = n)
  /\ (forall (kvs f : list (string * PyVal)) (n : string) (args : PyVal) (w : World),
      dict_lookup "function" kvs = Some (PDict f) ->
      dict_lookup "name" f = Some (PStr n) ->
      dict_lookup "arguments" f = Some args ->
      TOOL_FUNCS !! n = None ->
      execute_tool_call (PDict kvs) w =
        (Returned ("[ERROR] No hay implementación para la herramienta '" +:+ n +:+ "'."), w)).
Proof.
  split; [exact advertised_is_registered |].
  intros kvs f n args w Hf Hn Ha Hreg.
  unfold execute_tool_call.
  rewrite (read_call_dict kvs f (PStr n) args Hf Hn Ha).
  cbn. rewrite Hreg. reflexivity.
Qed.

Lemma execute_tool_call_registered (call name args : PyVal) (n : string)
    (func : PyFunc) (w : World) :
  read_call call = Returned (name, args) ->
  name = PStr n ->
  TOOL_FUNCS !! n = Some func ->
  execute_tool_call call w =
    match invoke func args (emit (EvPrint (execution_notice name args)) w) with
    | (Returned result, w2) => (Returned (py_str result), w2)
    | (Raised e, w2) => on_tool_exception name e w2
    end.
Proof.
  intros Hread -> Hreg. unfold execute_tool_call. rewrite Hread. cbn.
  rewrite Hreg. reflexivity.
Qed.

Lemma execute_tool_call_unregistered (call args : PyVal) (n : string) (w : World) :
  read_call call = Returned (PStr n, args) ->
  TOOL_FUNCS !! n = None ->
  execute_tool_call call w = (Returned (no_implementation_error (PStr n)), w).
Proof.
  intros Hread Hreg. unfold execute_tool_call. rewrite Hread. cbn.
  rewrite Hreg. reflexivity.
Qed.

(** Binding fails, with a [TypeError], as soon as an argument that the
    descriptor requires is absent: for each of the five tools the
    parameters without default are the names its descriptor requires. *)
Lemma bind_kwargs_not_mapping (func : PyFunc) (args : PyVal) :
  is_dict args = false ->
  exists f, fault_class f = TypeError /\ bind_kwargs func args = raise_fault f.
Proof.
  intros Hd. exists (KwargsNotMapping (fn_name func) args). split; [reflexivity |].
  destruct args; try reflexivity. discriminate.
Qed.

Lemma bind_kwargs_lacking (func : PyFunc) (kvs : list (string * PyVal)) :
  List.filter (lacks kvs) (fn_params func) <> [] ->
  exists f, fault_class f = TypeError /\ bind_kwargs func (PDict kvs) = raise_fault f.
Proof.
  intros Hl. unfold bind_kwargs.
  destruct (List.find _ kvs) as [kv |].
  - eexists; split; [| reflexivity]; reflexivity.
  - destruct (List.filter (lacks kvs) (fn_params func)) as [| p ps]; [contradiction |].
    eexists; split; [| reflexivity]; reflexivity.
Qed.

Lemma bind_kwargs_missing_required (n : string) (func : PyFunc) (args : PyVal) :
  TOOL_FUNCS !! n = Some func ->
  required_arguments_present n args = false ->
  exists f, fault_class f = TypeError /\ bind_kwargs func args = raise_fault f.
Proof.
  intros Hreg Hreq. apply TOOL_FUNCS_lookup_Some in Hreg.
  destruct args as [ | | | | | kvs];
    try (apply bind_kwargs_not_mapping; reflexivity).
  destruct Hreg as [[-> ->] | [[-> ->] | [[-> ->] | [[-> ->] | [-> ->]]]]];
    cbn in Hreq; rewrite andb_true_r in Hreq;
    apply bind_kwargs_lacking; cbn; unfold lacks; cbn;
    match type of Hreq with
    | context [dict_lookup ?k kvs] => destruct (dict_lookup k kvs); [discriminate |]
    end; discriminate.
Qed.

(** A failed binding never enters the body of the tool. *)
Lemma invoke_unbound (func : PyFunc) (args : PyVal) (w : World) (f : Fault) :
  bind_kwargs func args = raise_fault f ->
  invoke func args w = (raise_fault f, w).
Proof. intros Hb. unfold invoke. rewrite Hb. reflexivity. Qed.

(** C4, as the code has it.  The name is the only thing checked before
    the call: a request naming an unregistered tool is answered at once
    and the world is as before.  A request for a registered tool that
    lacks a required argument is announced and handed to the function;
    binding its arguments raises a [TypeError], so the body of the tool is
    not entered, and the request is answered with the report of that
    exception. *)
Theorem name_checked_before_call_arguments_by_binding
    (call args : PyVal) (n : string) (w : World) :
  read_call call = Returned (PStr n, args) ->
  (TOOL_FUNCS !! n = None ->
     execute_tool_call call w = (Returned (no_implementation_error (PStr n)), w))
  /\ (is_Some (TOOL_FUNCS !! n) ->
      required_arguments_present n args = false ->
      exists e,
        exc_class e = TypeError
        /\ execute_tool_call call w =
             (Returned (tool_failure_error (PStr n) e),
              emit (EvPrint (execution_notice (PStr n) args)) w)).
Proof.
  intros Hread. split.
  - intros Hreg. exact (execute_tool_call_unregistered call args n w Hread Hreg).
  - intros [func Hreg] Hreq.
    destruct (bind_kwargs_missing_required n func args Hreg Hreq) as (f & Hf & Hb).
    exists {| exc_class := fault_class f; exc_msg := fault_msg f |}. split; [exact Hf |].
    rewrite (execute_tool_call_registered call (PStr n) args n func w Hread eq_refl Hreg).
    rewrite (invoke_unbound _ _ _ f Hb). unfold raise_fault, on_tool_exception. cbn.
    rewrite Hf. reflexivity.
Qed.






End DispatchFacts.

(** ** The conversation loop *)

Section LoopFacts.
Context `{Externals}.

Lemma leave_loop_messages (e : Exc) (msgs : list PyVal) (flag : bool)
    (lines : list string) (w : World) :
  messages (leave_loop e msgs flag lines w) = msgs.
Proof.
  unfold leave_loop.
  destruct (is_KeyboardInterrupt (exc_class e)); [reflexivity |].
  destruct (is_Exception (exc_class e)); reflexivity.
Qed.

(** The [for] loop only ever appends. *)
Lemma run_tool_calls_prefix (calls msgs : list PyVal) (w : World) :
  msgs `prefix_of` (run_tool_calls calls msgs w).1.2.
Proof.
  revert msgs w. induction calls as [| call rest IH]; intros msgs w; cbn.
  - reflexivity.
  - destruct (execute_tool_call call w) as [[tool_output | e] w1]; cbn.
    + etransitivity; [| apply IH]. apply prefix_app_r. reflexivity.
    + reflexivity.
Qed.

(** When the [for] loop runs to its end, it has appended one tool message
    per request; when an exception leaves it, fewer. *)
Lemma run_tool_calls_appends (calls msgs : list PyVal) (w : World) :
  exists outputs : list string,
    (run_tool_calls calls msgs w).1.2 = msgs ++ map tool_message outputs
    /\ match (run_tool_calls calls msgs w).1.1 with
       | None => length outputs = length calls
       | Some _ => length outputs < length calls
       end.
Proof.
  revert msgs w. induction calls as [| call rest IH]; intros msgs w; cbn.
  - exists []. split; [rewrite app_nil_r; reflexivity | reflexivity].
  - destruct (execute_tool_call call w) as [[tool_output | e] w1]; cbn.
    + destruct (IH (msgs ++ [tool_message tool_output]) w1) as (outputs & Hmsgs & Hlen).
      exists (tool_output :: outputs). split.
      * rewrite Hmsgs, <- app_assoc. reflexivity.
      * destruct (run_tool_calls rest _ w1).1.1; cbn; lia.
    + exists []. split; [rewrite app_nil_r; reflexivity | cbn; lia].
Qed.

Lemma await_user_prefix (s : Session) :
  messages s `prefix_of` messages (await_user s).
Proof.
  unfold await_user. destruct (stdin s) as [| line rest].
  - rewrite leave_loop_messages. reflexivity.
  - destruct (_ || _); cbn; [reflexivity |]. apply prefix_app_r. reflexivity.
Qed.

Lemma model_turn_prefix (s : Session) :
  messages s `prefix_of` messages (model_turn s).
Proof.
  unfold model_turn.
  destruct (call_agent (messages s) (world s)) as [[response | e] w1];
    [| rewrite leave_loop_messages; reflexivity].
  destruct (response_field response "tool_calls" (PList [])) as [tool_calls | e];
    [| rewrite leave_loop_messages; reflexivity].
  destruct (truthy tool_calls).
  - destruct (py_iter tool_calls) as [calls | e];
      [| rewrite leave_loop_messages; reflexivity].
    pose proof (run_tool_calls_prefix calls (messages s) w1) as Hp.
    destruct (run_tool_calls calls (messages s) w1) as [[[e |] msgs'] w2]; cbn in Hp |- *;
      [rewrite leave_loop_messages |]; exact Hp.
  - destruct (response_field response "content" (PStr EmptyString))
      as [assistant_response | e]; [| rewrite leave_loop_messages; reflexivity].
    destruct (truthy assistant_response); cbn; [| reflexivity].
    apply prefix_app_r. reflexivity.
Qed.

Lemma step_prefix (s : Session) : messages s `prefix_of` messages (step s).
Proof.
  unfold step. destruct (phase s);
    [apply await_user_prefix | apply model_turn_prefix | reflexivity | reflexivity].
Qed.

Lemma run_prefix (k : nat) (s : Session) : messages s `prefix_of` messages (run k s).
Proof.
  revert s. induction k as [| k IH]; intros s; cbn; [reflexivity |].
  etransitivity; [apply step_prefix | apply IH].
Qed.

Lemma prefix_keeps_head (x : PyVal) (l1 l2 : list PyVal) :
  l1 `prefix_of` l2 -> head l1 = Some x -> head l2 = Some x.
Proof.
  intros [k ->] Hx. destruct l1 as [| y l1]; [discriminate |]. exact Hx.
Qed.

(** C6. The history is append-only: after any number of steps, from any
    state of the loop, the history held before is an initial segment of
    the history held now, so nothing was removed or reordered; and the
    first message of a session is the system prompt at every moment. *)
Theorem history_is_append_only :
  (forall (s : Session) (k : nat), messages s `prefix_of` messages (run k s))
  /\ (forall (lines : list string) (w : World) (k : nat),
        head (messages (main k lines w)) = Some system_message).
Proof.
  split.
  - intros s k. apply run_prefix.
  - intros lines w k. unfold main.
    apply (prefix_keeps_head _ (messages (start lines w))); [apply run_prefix | reflexivity].
Qed.

Lemma call_agent_returned (msgs : list PyVal) (w : World) (response : PyVal) (n : Net) :
  ollama_chat msgs (net w) = (Returned response, n) ->
  call_agent msgs w = (Returned response, with_net n (emit (EvChat msgs) w)).
Proof.
  intros Hchat. unfold call_agent, outside. cbn. rewrite Hchat. reflexivity.
Qed.

(** C9. When the model answers with no tool-call request and with empty
    text, the step appends nothing to the history, prints the no-answer
    line, and waits for the user again. *)
Theorem empty_answer_is_not_recorded
    (s : Session) (response tool_calls content : PyVal) (n : Net) :
  phase s = ModelTurn ->
  ollama_chat (messages s) (net (world s)) = (Returned response, n) ->
  response_field response "tool_calls" (PList []) = Returned tool_calls ->
  truthy tool_calls = false ->
  response_field response "content" (PStr EmptyString) = Returned content ->
  truthy content = false ->
  messages (step s) = messages s
  /\ trace (world (step s)) =
       trace (world s) ++ [EvChat (messages s); EvPrint "(sin respuesta del modelo)"]
  /\ phase (step s) = AwaitingUser.
Proof.
  intros Hphase Hchat Htc Hno Hcontent Hempty.
  unfold step. rewrite Hphase. unfold model_turn.
  rewrite (call_agent_returned _ _ _ _ Hchat), Htc, Hno, Hcontent, Hempty. cbn.
  rewrite <- app_assoc. repeat split; reflexivity.
Qed.

(** When both requests of a response are answered by [execute_tool_call],
    they are dispatched in the order received, their two tool messages
    are appended in that order, and the loop is back at the model call. *)
Lemma two_tool_calls_in_order
    (s : Session) (response c1 c2 : PyVal) (n : Net) (o1 o2 : string) (w2 w3 : World) :
  phase s = ModelTurn ->
  ollama_chat (messages s) (net (world s)) = (Returned response, n) ->
  response_field response "tool_calls" (PList []) = Returned (PList [c1; c2]) ->
  execute_tool_call c1 (with_net n (emit (EvChat (messages s)) (world s))) = (Returned o1, w2) ->
  execute_tool_call c2 w2 = (Returned o2, w3) ->
  step s = {| phase := ModelTurn;
              messages := messages s ++ [tool_message o1; tool_message o2];
              tools_executed := true; stdin := stdin s; world := w3 |}.
Proof.
  intros Hphase Hchat Htc H1 H2.
  unfold step. rewrite Hphase. unfold model_turn.
  rewrite (call_agent_returned _ _ _ _ Hchat), Htc. cbn.
  rewrite H1, H2. cbn. rewrite <- app_assoc. reflexivity.
Qed.

End LoopFacts.

(** ** The tools *)

Section ToolFacts.
Context `{Externals}.

(** *** The substitution of [_sanitize_path_literals] *)

Lemma split_first_spec (c : ascii) (s before after : string) :
  split_first c s = Some (before, after) -> s = before +:+ String c after.
Proof.
  revert before. induction s as [| a s IH]; intros before Hs; [discriminate |].
  cbn in Hs. destruct (Ascii.eqb a c) eqn:Hac.
  - apply Ascii.eqb_eq in Hac. inversion Hs; subst. reflexivity.
  - destruct (split_first c s) as [[b r] |]; [| discriminate].
    inversion Hs; subst. rewrite (IH b eq_refl). reflexivity.
Qed.

Lemma append_cons (c : ascii) (a b : string) : String c a +:+ b = String c (a +:+ b).
Proof. reflexivity. Qed.

Lemma append_assoc (a b c : string) : (a +:+ b) +:+ c = a +:+ b +:+ c.
Proof.
  induction a as [| ch a IH]; [reflexivity |].
  rewrite !append_cons, IH. reflexivity.
Qed.

Lemma length_append (a b : string) :
  String.length (a +:+ b) = String.length a + String.length b.
Proof.
  induction a as [| ch a IH]; [reflexivity |].
  rewrite append_cons. cbn. rewrite IH. reflexivity.
Qed.

(** A match of the quoted part consumes the quote, the body and the
    closing quote. *)
Lemma match_quoted_spec (s : string) (q : ascii) (body rest : string) :
  match_quoted s = Some (q, body, rest) ->
  s = String q (body +:+ String q rest) /\ is_quote q = true.
Proof.
  destruct s as [| q0 s1]; [discriminate |]. cbn.
  destruct (is_quote q0) eqn:Hq; [| discriminate].
  destruct (split_first bslash s1) as [[a s2] |] eqn:H1; [| discriminate].
  destruct (split_first q0 s2) as [[b r] |] eqn:H2; [| discriminate].
  intros Hm. inversion Hm; subst.
  apply split_first_spec in H1. apply split_first_spec in H2. subst.
  split; [| exact Hq]. rewrite append_assoc. reflexivity.
Qed.

(** A match at the start of [String c s'] consumes [c] and a part [mid]
    of [s']. *)
Lemma match_here_consumes (c : ascii) (s' repl rest : string) :
  match_here (String c s') = Some (repl, rest) ->
  exists mid, s' = mid +:+ rest.
Proof.
  unfold match_here.
  assert (Hplain : forall o,
    match match_quoted (String c s') with
    | Some (q, body, rest0) =>
        Some (String q (double_backslashes body +:+ String q EmptyString), rest0)
    | None => None
    end = Some o -> exists mid, s' = mid +:+ snd o).
  { intros o. destruct (match_quoted (String c s')) as [[[q body] rest0] |] eqn:Hm;
      [| discriminate].
    apply match_quoted_spec in Hm as [Hs _]. inversion Hs; subst.
    intros Ho. inversion Ho; subst. cbn.
    exists (body +:+ String q EmptyString). rewrite append_assoc. reflexivity. }
  destruct (is_raw_prefix c).
  - destruct (match_quoted s') as [[[q body] rest0] |] eqn:Hm.
    + apply match_quoted_spec in Hm as [Hs _]. intros Ho. inversion Ho; subst.
      exists (String q (body +:+ String q EmptyString)).
      rewrite append_cons, append_assoc. reflexivity.
    + intros Ho. exact (Hplain _ Ho).
  - intros Ho. exact (Hplain _ Ho).
Qed.

Lemma sub_path_literals_skip (mid rest : string) :
  sub_path_literals (String.length mid) (mid +:+ rest) = sub_path_literals O rest.
Proof.
  induction mid as [| c mid IH]; [reflexivity |].
  rewrite append_cons. cbn. exact IH.
Qed.

(** The substitution, as [re.sub] proceeds: where the pattern matches,
    the replacement is emitted and the scan resumes after the match;
    elsewhere the character is kept. *)
Lemma sub_path_literals_unfold (s : string) :
  sub_path_literals O s =
    match s with
    | EmptyString => EmptyString
    | String c s' =>
        match match_here s with
        | Some (repl, rest) => repl +:+ sub_path_literals O rest
        | None => String c (sub_path_literals O s')
        end
    end.
Proof.
  destruct s as [| c s']; [reflexivity |].
  cbn [sub_path_literals].
  destruct (match_here (String c s')) as [[repl rest] |] eqn:Hm; [| reflexivity].
  destruct (match_here_consumes c s' repl rest Hm) as [mid ->].
  rewrite length_append.
  replace (String.length mid + String.length rest - String.length rest)
    with (String.length mid) by lia.
  rewrite sub_path_literals_skip. reflexivity.
Qed.

(** Code without a backslash is left as it is. *)
Lemma split_first_none (c : ascii) (s : string) :
  contains_char c s = false -> split_first c s = None.
Proof.
  induction s as [| a s IH]; [reflexivity |]. cbn.
  destruct (Ascii.eqb a c); [discriminate |].
  intros Hs. rewrite (IH Hs). reflexivity.
Qed.

Lemma match_here_none (s : string) :
  contains_char bslash s = false -> match_here s = None.
Proof.
  assert (Hq : forall t, contains_char bslash t = false -> match_quoted t = None).
  { intros [| q t]; [reflexivity |]. cbn.
    destruct (Ascii.eqb q bslash); [discriminate |]. intros Ht.
    rewrite (split_first_none _ _ Ht). destruct (is_quote q); reflexivity. }
  intros Hs. unfold match_here. rewrite (Hq s Hs).
  destruct s as [| p s1]; [reflexivity |].
  cbn in Hs. destruct (Ascii.eqb p bslash); [discriminate |].
  rewrite (Hq s1 Hs). destruct (is_raw_prefix p); reflexivity.
Qed.

Lemma sub_path_literals_no_backslash (s : string) :
  contains_char bslash s = false -> sub_path_literals O s = s.
Proof.
  induction s as [| c s IH]; [reflexivity |]. intros Hs.
  rewrite sub_path_literals_unfold, (match_here_none _ Hs).
  cbn in Hs. destruct (Ascii.eqb c bslash); [discriminate |].
  rewrite (IH Hs). reflexivity.
Qed.

(** *** The tools other than [code_exec] leave the namespace alone *)

Lemma outside_globals {A} (f : Net -> Outcome A * Net) (w : World) :
  _EXEC_GLOBALS (snd (outside f w)) = _EXEC_GLOBALS w.
Proof. unfold outside. destruct (f (net w)) as [r n]. reflexivity. Qed.

Lemma search_web_globals (query : PyVal) (w : World) :
  _EXEC_GLOBALS (snd (search_web query w)) = _EXEC_GLOBALS w.
Proof. apply outside_globals. Qed.

Lemma search_yf_globals (query : PyVal) (w : World) :
  _EXEC_GLOBALS (snd (search_yf query w)) = _EXEC_GLOBALS w.
Proof. apply outside_globals. Qed.

Lemma wikipedia_lookup_globals (query : PyVal) (w : World) :
  _EXEC_GLOBALS (snd (wikipedia_lookup query w)) = _EXEC_GLOBALS w.
Proof. apply outside_globals. Qed.

Lemma save_text_to_file_globals (data filename : PyVal) (w : World) :
  _EXEC_GLOBALS (snd (save_text_to_file data filename w)) = _EXEC_GLOBALS w.
Proof.
  unfold save_text_to_file.
  destruct filename as [ | b | z | fn | xs | d]; try reflexivity;
    try apply outside_globals.
  destruct (open_append_denied fn (net w)); [reflexivity |].
  assert (Hopen : _EXEC_GLOBALS (open_append fn w) = _EXEC_GLOBALS w)
    by (unfold open_append; destruct (files w !! fn); reflexivity).
  destruct data; cbn; try exact Hopen.
  unfold write_append. destruct (files (open_append fn w) !! fn); exact Hopen.
Qed.

(** *** [save_text_to_file] *)

Lemma open_append_lookup (fn : string) (w : World) :
  files (open_append fn w) !! fn = Some (default EmptyString (files w !! fn)).
Proof.
  unfold open_append. destruct (files w !! fn) as [old |] eqn:Hold; cbn.
  - exact Hold.
  - apply lookup_insert_eq.
Qed.

Lemma open_append_other (fn other : string) (w : World) :
  other <> fn -> files (open_append fn w) !! other = files w !! other.
Proof.
  intros Hne. unfold open_append. destruct (files w !! fn); cbn; [reflexivity |].
  apply lookup_insert_ne. congruence.
Qed.

Lemma open_append_net (fn : string) (w : World) : net (open_append fn w) = net w.
Proof. unfold open_append. destruct (files w !! fn); reflexivity. Qed.

(** One successful call: the file holds what it held, or nothing if it
    was absent, followed by the data; other files are untouched. *)
Lemma save_text_to_file_once (data fn : string) (w : World) :
  open_append_denied fn (net w) = None ->
  fst (save_text_to_file (PStr data) (PStr fn) w)
    = Returned (PStr ("Data successfully saved to " +:+ fn))
  /\ files (snd (save_text_to_file (PStr data) (PStr fn) w)) !! fn
     = Some (default EmptyString (files w !! fn) +:+ data)
  /\ net (snd (save_text_to_file (PStr data) (PStr fn) w)) = net w
  /\ (forall other, other <> fn ->
        files (snd (save_text_to_file (PStr data) (PStr fn) w)) !! other
        = files w !! other).
Proof.
  intros Hok. unfold save_text_to_file. rewrite Hok. cbn.
  unfold write_append. rewrite open_append_lookup. cbn.
  split; [reflexivity |]. split; [apply lookup_insert_eq |].
  split; [apply open_append_net |].
  intros other Hne. rewrite lookup_insert_ne by congruence.
  apply open_append_other. exact Hne.
Qed.

(** C8. Two calls with the same file name: the file ends up holding what
    it held before (nothing, if it had to be created) followed by the
    first data and then the second; nothing is overwritten, and each call
    returns the confirmation that names the file. *)
Theorem save_text_to_file_appends (data1 data2 fn : string) (w : World) :
  open_append_denied fn (net w) = None ->
  let first := save_text_to_file (PStr data1) (PStr fn) w in
  let second := save_text_to_file (PStr data2) (PStr fn) (snd first) in
  fst first = Returned (PStr ("Data successfully saved to " +:+ fn))
  /\ fst second = Returned (PStr ("Data successfully saved to " +:+ fn))
  /\ files (snd first) !! fn = Some (default EmptyString (files w !! fn) +:+ data1)
  /\ files (snd second) !! fn
     = Some (default EmptyString (files w !! fn) +:+ data1 +:+ data2).
Proof.
  intros Hok first second.
  destruct (save_text_to_file_once data1 fn w Hok) as (Hr1 & Hf1 & Hn1 & _).
  fold first in Hr1, Hf1, Hn1.
  assert (Hok2 : open_append_denied fn (net (snd first)) = None) by (rewrite Hn1; exact Hok).
  destruct (save_text_to_file_once data2 fn (snd first) Hok2) as (Hr2 & Hf2 & _ & _).
  fold second in Hr2, Hf2.
  repeat split; [exact Hr1 | exact Hr2 | exact Hf1 |].
  rewrite Hf2, Hf1. change (default EmptyString (Some ?s)) with s. apply f_equal, append_assoc.
Qed.

(** A namespace that binds anything is not re-initialised. *)
Lemma ensure_exec_env_bound (w : World) (x : string) (v : Obj) :
  binds x v (_EXEC_GLOBALS w) -> _ensure_exec_env w = w.
Proof.
  unfold binds, _ensure_exec_env. intros Hx.
  destruct (decide (_EXEC_GLOBALS w = ∅)) as [Hempty |]; [| reflexivity].
  rewrite Hempty, lookup_empty in Hx. discriminate.
Qed.

(** The namespace after a call is the one [exec] left, whether or not the
    executed code raised: no handler of [code_exec] resets it. *)
Lemma code_exec_globals (code : PyVal) (w : World) :
  _EXEC_GLOBALS (snd (code_exec code w)) = ex_env (exec_result code w).
Proof.
  unfold code_exec, exec_result, exec_namespace.
  destruct (py_exec _ _ _) as [r n]. cbn.
  destruct (ex_exc r) as [e |]; [| reflexivity].
  destruct (is_Exception (exc_class e)); reflexivity.
Qed.

(** The next call starts in that very namespace, unless the code emptied
    it. *)
Lemma namespace_handed_on (code : PyVal) (w : World) :
  ex_env (exec_result code w) <> ∅ ->
  exec_namespace (snd (code_exec code w)) = ex_env (exec_result code w).
Proof.
  intros Hne. unfold exec_namespace, _ensure_exec_env.
  rewrite code_exec_globals.
  destruct (decide (ex_env (exec_result code w) = ∅)); [contradiction |].
  apply code_exec_globals.
Qed.

(** A call whose code ends normally or in an exception of the
    [Exception] hierarchy returns a string. *)
Lemma code_exec_returns (code : PyVal) (w : World) :
  ends_within_Exception (exec_result code w) = true ->
  exists s, fst (code_exec code w) = Returned (PStr s).
Proof.
  unfold ends_within_Exception, code_exec, exec_result, exec_namespace.
  destruct (py_exec _ _ _) as [r n]. cbn.
  destruct (ex_exc r) as [e |]; [| intros _; eexists; reflexivity].
  intros ->. eexists; reflexivity.
Qed.

Lemma namespaces_seen_bind (codes : list PyVal) (w : World) (x : string) (v : Obj) :
  binds x v (_EXEC_GLOBALS w) ->
  Forall (fun r => binds x v (ex_env r)) (results_of codes w) ->
  Forall (binds x v) (namespaces_seen codes w)
  /\ binds x v (_EXEC_GLOBALS (exec_all codes w)).
Proof.
  revert w. induction codes as [| code rest IH]; intros w Hw Hres; cbn in *.
  - split; [constructor | exact Hw].
  - inversion Hres as [| r rs Hr Hrs]; subst.
    assert (Hnext : binds x v (_EXEC_GLOBALS (snd (code_exec code w))))
      by (rewrite code_exec_globals; exact Hr).
    destruct (IH _ Hnext Hrs) as [Hseen Hlast].
    split; [| exact Hlast]. constructor; [| exact Hseen].
    unfold exec_namespace. rewrite (ensure_exec_env_bound w x v Hw). exact Hw.
Qed.

Lemma outcomes_of_returned (codes : list PyVal) (w : World) :
  Forall2 (fun r o => ends_within_Exception r = true -> exists s, o = Returned (PStr s))
          (results_of codes w) (outcomes_of codes w).
Proof.
  revert w. induction codes as [| code rest IH]; intros w; cbn; constructor.
  - apply code_exec_returns.
  - apply IH.
Qed.

(** What a call returns is what its code printed, followed by the report
    of the exception that ended it, if one of [Exception] did; any other
    exception is raised. *)
Lemma code_exec_outcome (code : PyVal) (w : World) :
  fst (code_exec code w)
  = match ex_exc (exec_result code w) with
    | None => Returned (PStr (ex_out (exec_result code w)))
    | Some e =>
        if is_Exception (exc_class e)
        then Returned (PStr (ex_out (exec_result code w) +:+ "Error: " +:+ exc_msg e
                             +:+ nl +:+ format_exc e +:+ nl))
        else Raised e
    end.
Proof.
  unfold code_exec, exec_result, exec_namespace.
  destruct (py_exec _ _ _ _) as [r n]. cbn.
  destruct (ex_exc r) as [e |]; [| reflexivity].
  destruct (is_Exception (exc_class e)); reflexivity.
Qed.

(** Along a sequence of calls that starts in a namespace binding [x], each
    call's code starts in the namespace that its predecessor's code
    left. *)
Lemma namespaces_seen_handed_on (later : list PyVal) (w : World) (x : string) (v : Obj) :
  binds x v (_EXEC_GLOBALS w) ->
  Forall (fun r => binds x v (ex_env r)) (results_of later w) ->
  namespaces_seen later w
    = take (length later) (_EXEC_GLOBALS w :: map ex_env (results_of later w))
  /\ Forall (binds x v) (namespaces_seen later w).
Proof.
  revert w. induction later as [| code rest IH]; intros w Hw Hres; cbn in *.
  - split; [reflexivity | constructor].
  - inversion Hres as [| r rs Hr Hrs]; subst.
    assert (Hseen : exec_namespace w = _EXEC_GLOBALS w)
      by (unfold exec_namespace; rewrite (ensure_exec_env_bound w x v Hw); reflexivity).
    assert (Hnext : binds x v (_EXEC_GLOBALS (snd (code_exec code w))))
      by (rewrite code_exec_globals; exact Hr).
    destruct (IH _ Hnext Hrs) as [Hhand Hall].
    rewrite code_exec_globals in Hhand.
    split.
    + rewrite Hseen, Hhand. reflexivity.
    + constructor; [rewrite Hseen; exact Hw | exact Hall].
Qed.

Lemma outcomes_of_exact (codes : list PyVal) (w : World) :
  Forall2 (fun r o =>
             o = match ex_exc r with
                 | None => Returned (PStr (ex_out r))
                 | Some e =>
                     if is_Exception (exc_class e)
                     then Returned (PStr (ex_out r +:+ "Error: " +:+ exc_msg e
                                          +:+ nl +:+ format_exc e +:+ nl))
                     else Raised e
                 end)
          (results_of codes w) (outcomes_of codes w).
Proof.
  revert w. induction codes as [| code rest IH]; intros w; cbn; constructor.
  - apply code_exec_outcome.
  - apply IH.
Qed.

(** C7. A variable that the code of one [code_exec] call leaves bound,
    whether that code ended normally or raised, is handed to the calls
    that follow: the next call's code starts in exactly the namespace that
    the first one's code left, and every later call's code in exactly the
    namespace that its predecessor's code left, so that, as long as the
    programs executed meanwhile leave the binding alone, every later call
    sees the variable with its value.  No call is affected by a failure
    before it: each returns what its own code printed in the namespace
    handed to it, followed by the error text if its code raised within
    [Exception]; a call whose code ends normally there succeeds. *)
Theorem exec_environment_persists
    (first : PyVal) (later : list PyVal) (w : World) (x : string) (v : Obj) :
  binds x v (ex_env (exec_result first w)) ->
  Forall (fun r => binds x v (ex_env r)) (results_of later (snd (code_exec first w))) ->
  namespaces_seen later (snd (code_exec first w))
    = take (length later)
        (ex_env (exec_result first w)
           :: map ex_env (results_of later (snd (code_exec first w))))
  /\ Forall (binds x v) (namespaces_seen later (snd (code_exec first w)))
  /\ Forall2 (fun r o =>
                o = match ex_exc r with
                    | None => Returned (PStr (ex_out r))
                    | Some e =>
                        if is_Exception (exc_class e)
                        then Returned (PStr (ex_out r +:+ "Error: " +:+ exc_msg e
                                             +:+ nl +:+ format_exc e +:+ nl))
                        else Raised e
                    end)
             (results_of later (snd (code_exec first w)))
             (outcomes_of later (snd (code_exec first w))).
Proof.
  intros Hfirst Hlater.
  assert (Hw : binds x v (_EXEC_GLOBALS (snd (code_exec first w))))
    by (rewrite code_exec_globals; exact Hfirst).
  destruct (namespaces_seen_handed_on later _ x v Hw Hlater) as [Hhand Hall].
  rewrite code_exec_globals in Hhand.
  split; [exact Hhand |]. split; [exact Hall | apply outcomes_of_exact].
Qed.

End ToolFacts.

(** ** Closed examples *)

Module Examples.
Import Demo.

(** The guard at a request that names a tool and carries no arguments. *)
Lemma execute_tool_call_missing_field_witness :
  lacks_name_or_arguments (PDict [("function", PDict [("name", PStr "code_exec")])]) = true
  /\ execute_tool_call (PDict [("function", PDict [("name", PStr "code_exec")])]) (world0 [])
     = (Returned "[ERROR] tool_call mal formada: falta 'name' o 'arguments'.", world0 []).
Proof.
  split; [reflexivity |].
  apply (execute_tool_call_missing_field
           (PDict [("function", PDict [("name", PStr "code_exec")])]) (world0 [])).
  reflexivity.
Defined.

(** C2, where the code departs from it.  A request whose [function]
    entry is null, a string or a list carries neither a [name] nor an
    [arguments] field, yet it is not answered with the malformed-call
    string: the subscription of line 101 raises [TypeError], which the
    guard of line 103 lets through, whatever the environment. *)
Theorem request_without_fields_raises :
  forall (E : Externals) (w : World),
    Forall (fun v : PyVal =>
              request_field (PDict [("function", v)]) "name" = None
              /\ request_field (PDict [("function", v)]) "arguments" = None
              /\ execute_tool_call (PDict [("function", v)]) w
                 = (Raised {| exc_class := TypeError;
                              exc_msg := fault_msg (NotSubscriptable v "name") |}, w))
      [PNone; PStr "search_web"; PList []].
Proof.
  intros E w. repeat constructor.
Qed.

(** C3 at the registered name [code_exec] and at the unknown name [nope]. *)
Lemma registry_resolves_or_reports_no_implementation_witness :
  (exists func, TOOL_FUNCS_get (PStr "code_exec") = Returned (Some func)
                /\ fn_name func = "code_exec")
  /\ execute_tool_call (request "nope" (PDict [("query", PStr "a")])) (world0 [])
     = (Returned "[ERROR] No hay implementación para la herramienta 'nope'.", world0 []).
Proof.
  split.
  - apply (proj1 registry_resolves_or_reports_no_implementation "code_exec").
    rewrite advertised_names_eq. repeat constructor.
  - apply (proj2 registry_resolves_or_reports_no_implementation
             [("function", PDict [("name", PStr "nope");
                                  ("arguments", PDict [("query", PStr "a")])])]
             [("name", PStr "nope"); ("arguments", PDict [("query", PStr "a")])]
             "nope" (PDict [("query", PStr "a")]) (world0 []));
      reflexivity.
Defined.

(** C4 as the specification words it fails: [search_web] requested with
    no arguments lacks the required [query], yet the invocation is
    announced, and the answer is the report of the exception that the
    call raised. *)
Lemma arguments_are_not_validated_before_dispatch :
  ~ @validated_before_dispatch demo
  /\ required_arguments_present "search_web" (PDict []) = false
  /\ dispatch_events (request "search_web" (PDict [])) (world0 [])
     = [EvPrint " [·] Ejecutando tool: search_web con args={}"].
Proof.
  split; [| split; reflexivity].
  intros Hclaim.
  specialize (Hclaim "search_web" (PDict []) (world0 []) (or_intror eq_refl)).
  vm_compute in Hclaim. discriminate.
Qed.

(** C4 as the code has it, at the unknown name [nope] and at [search_web]
    without its [query]. *)
Lemma name_checked_before_call_arguments_by_binding_witness :
  execute_tool_call (request "nope" (PDict [])) (world0 [])
    = (Returned (no_implementation_error (PStr "nope")), world0 [])
  /\ exists e,
       exc_class e = TypeError
       /\ execute_tool_call (request "search_web" (PDict [])) (world0 [])
          = (Returned (tool_failure_error (PStr "search_web") e),
             emit (EvPrint (execution_notice (PStr "search_web") (PDict []))) (world0 [])).
Proof.
  split.
  - apply (proj1 (name_checked_before_call_arguments_by_binding
                    (request "nope" (PDict [])) (PDict []) "nope" (world0 []) eq_refl)).
    reflexivity.
  - apply (proj2 (name_checked_before_call_arguments_by_binding
                    (request "search_web" (PDict [])) (PDict []) "search_web"
                    (world0 []) eq_refl)).
    + eexists. reflexivity.
    + reflexivity.
Defined.



(** C1, where the code departs from it.  A request whose [function] entry
    is a string makes the first subscription raise [TypeError], which the
    handler for [KeyError] lets through, whatever the environment.  In a
    session the exception reaches the outer handler of [main]: no tool
    message is appended, the model is not called again, and the loop is
    left. *)
Theorem string_function_ends_the_session :
  (forall (E : Externals) (n : string) (w : World),
      execute_tool_call (PDict [("function", PStr n)]) w
      = (Raised {| exc_class := TypeError;
                   exc_msg := fault_msg (NotSubscriptable (PStr n) "name") |}, w))
  /\ (let s := run 2 (session [reply [string_function_call] EmptyString; reply [] "fin"]) in
      phase s = Ended
      /\ messages s = [system_message; user_message "hola"]
      /\ length (model_calls (trace (world s))) = 1
      /\ net (world s) = [reply [] "fin"]).
Proof.
  split; [intros E n w; reflexivity |].
  vm_compute. repeat split; reflexivity.
Qed.

(** C5, where the code departs from it.  The response carries two
    requests; the first has a string as its [function] entry.  Its
    exception leaves the [for] loop, so the second request, a sound
    [code_exec], is never dispatched: no tool body runs, no tool message
    is appended, and no follow-up call reaches the model. *)
Theorem second_request_dropped_after_failed_first :
  let s := run 2 (session [reply [string_function_call; define_x] EmptyString;
                           reply [] "fin"]) in
  phase s = Ended
  /\ messages s = [system_message; user_message "hola"]
  /\ tools_run (trace (world s)) = []
  /\ length (model_calls (trace (world s))) = 1.
Proof. vm_compute. repeat split; reflexivity. Qed.

(** Two requests that [execute_tool_call] answers: dispatched in order,
    answered in order, and followed by one more call to the model, which
    receives both tool messages. *)
Example two_sound_requests_in_order :
  let s := run 3 (session [reply [define_x; print_x] EmptyString; reply [] "fin"]) in
  messages s = [system_message; user_message "hola";
                tool_message EmptyString; tool_message ("41" +:+ nl);
                assistant_message (PStr "fin")]
  /\ tools_run (trace (world s)) = ["code_exec"; "code_exec"]
  /\ model_calls (trace (world s))
     = [[system_message; user_message "hola"];
        [system_message; user_message "hola";
         tool_message EmptyString; tool_message ("41" +:+ nl)]].
Proof. vm_compute. repeat split; reflexivity. Qed.

(** C7 at three calls: [x] is defined, the next program fails with a
    division by zero, the third prints [x]. *)
Lemma exec_environment_persists_witness :
  let w1 := snd (code_exec (PStr "x = 41") (world0 [])) in
  let later := [PStr "y = 1; 1/0"; PStr "print(x)"] in
  binds "x" 41%Z (ex_env (exec_result (PStr "x = 41") (world0 [])))
  /\ (namespaces_seen later w1
        = take (length later)
            (ex_env (exec_result (PStr "x = 41") (world0 []))
               :: map ex_env (results_of later w1))
      /\ Forall (binds "x" 41%Z) (namespaces_seen later w1)
      /\ Forall2 (fun r o =>
                    o = match ex_exc r with
                        | None => Returned (PStr (ex_out r))
                        | Some e =>
                            if is_Exception (exc_class e)
                            then Returned (PStr (ex_out r +:+ "Error: " +:+ exc_msg e
                                                 +:+ nl +:+ format_exc e +:+ nl))
                            else Raised e
                        end)
                 (results_of later w1) (outcomes_of later w1)).
Proof.
  intros w1 later. split; [reflexivity |].
  apply (exec_environment_persists (PStr "x = 41") later (world0 []) "x" 41%Z);
    [reflexivity |].
  repeat constructor.
Defined.

Example third_call_prints_x :
  let w := snd (code_exec (PStr "x = 41") (world0 [])) in
  outcomes_of [PStr "y = 1; 1/0"; PStr "print(x)"] w
  = [Returned (PStr ("Error: division by zero" +:+ nl
                     +:+ "Traceback (most recent call last): division by zero"
                     +:+ nl +:+ nl));
     Returned (PStr ("41" +:+ nl))].
Proof. vm_compute. reflexivity. Qed.

(** C8 at two texts saved to a file that does not exist yet. *)
Lemma save_text_to_file_appends_witness :
  open_append_denied "notes.txt" (net (world0 [])) = None
  /\ (let first := save_text_to_file (PStr "uno,") (PStr "notes.txt") (world0 []) in
      let second := save_text_to_file (PStr "dos") (PStr "notes.txt") (snd first) in
      fst first = Returned (PStr ("Data successfully saved to " +:+ "notes.txt"))
      /\ fst second = Returned (PStr ("Data successfully saved to " +:+ "notes.txt"))
      /\ files (snd first) !! "notes.txt"
         = Some (default EmptyString (files (world0 []) !! "notes.txt") +:+ "uno,")
      /\ files (snd second) !! "notes.txt"
         = Some (default EmptyString (files (world0 []) !! "notes.txt") +:+ "uno," +:+ "dos")).
Proof.
  split; [reflexivity |].
  apply (save_text_to_file_appends "uno," "dos" "notes.txt" (world0 [])).
  reflexivity.
Defined.

Example saved_file_content :
  files (snd (save_text_to_file (PStr "dos") (PStr "notes.txt")
                (snd (save_text_to_file (PStr "uno,") (PStr "notes.txt") (world0 [])))))
    !! "notes.txt" = Some "uno,dos".
Proof. vm_compute. reflexivity. Qed.

(** C9 at a response with no request and empty text. *)
Lemma empty_answer_is_not_recorded_witness :
  let s := waiting_for_model [reply [] EmptyString] in
  messages (step s) = messages s
  /\ trace (world (step s)) =
       trace (world s) ++ [EvChat (messages s); EvPrint "(sin respuesta del modelo)"]
  /\ phase (step s) = AwaitingUser.
Proof.
  intros s.
  apply (empty_answer_is_not_recorded s (reply [] EmptyString) (PList [])
           (PStr EmptyString) []); reflexivity.
Defined.

End Examples.

(** * Further properties *)

(** ** The model name and its choice (main.py, lines 18-66, 119-131) *)

Section StartupFacts.
Context `{Externals}.
Variable str_isdigit : string -> bool.
Variable ollama_probe : string -> Net -> Outcome PyVal * Net.

Lemma existsb_eqb_elem_of (c : string) (seen : list string) :
  existsb (String.eqb c) seen = true <-> c ∈ seen.
Proof.
  rewrite existsb_exists. split.
  - intros (x & Hin & Heq). apply String.eqb_eq in Heq. subst.
    apply list_elem_of_In. exact Hin.
  - intros Hin. exists c. split; [apply list_elem_of_In; exact Hin | apply String.eqb_refl].
Qed.

Lemma probes_of_app (t1 t2 : list BootEvent) :
  probes_of (t1 ++ t2) = probes_of t1 ++ probes_of t2.
Proof. unfold probes_of. apply flat_map_app. Qed.

Lemma probes_of_boot_write (text : string) (b : Boot) :
  probes_of (boot_trace (boot_write text b)) = probes_of (boot_trace b).
Proof. cbn. rewrite probes_of_app. cbn. apply app_nil_r. Qed.

Lemma probes_of_boot_print (text : string) (b : Boot) :
  probes_of (boot_trace (boot_print text b)) = probes_of (boot_trace b).
Proof. apply probes_of_boot_write. Qed.

(** A probe of a named model asks the backend once; only an exception
    from outside [Exception] leaves it, and [True] means an answer. *)
Lemma try_model_probe_spec (c : string) (b : Boot) :
  c <> EmptyString ->
  probes_of (boot_trace (snd (try_model_probe ollama_probe c b)))
    = probes_of (boot_trace b) ++ [c]
  /\ (forall e, fst (try_model_probe ollama_probe c b) = Raised e ->
        is_Exception (exc_class e) = false)
  /\ (fst (try_model_probe ollama_probe c b) = Returned true ->
        exists v n, ollama_probe c (boot_net b) = (Returned v, n)).
Proof.
  intros Hc. unfold try_model_probe.
  destruct (String.eqb c EmptyString) eqn:Hempty;
    [apply String.eqb_eq in Hempty; contradiction |].
  destruct (ollama_probe c (boot_net b)) as [[v | e] n]; cbn.
  - rewrite probes_of_app. cbn. repeat split; [discriminate | eauto].
  - destruct (is_Exception (exc_class e)) eqn:He; cbn.
    + rewrite probes_of_app, probes_of_app. cbn. rewrite app_nil_r.
      repeat split; discriminate.
    + rewrite probes_of_app. cbn. repeat split; [| discriminate].
      intros e' He'. inversion He'; subst. exact He.
Qed.

(** The loop of [select_working_model], with the list [seen]. *)
Lemma select_from_spec (candidates seen : list string) (b : Boot) :
  exists P : list string,
    probes_of (boot_trace (snd (select_from ollama_probe candidates seen b)))
      = probes_of (boot_trace b) ++ P
    /\ P `sublist_of` candidates
    /\ Forall (fun c => c <> EmptyString /\ c ∉ seen) P
    /\ NoDup P
    /\ (forall c, fst (select_from ollama_probe candidates seen b) = Returned (Some c) ->
          c ∈ candidates /\ c <> EmptyString /\ last P = Some c
          /\ exists v n n', ollama_probe c n = (Returned v, n'))
    /\ (fst (select_from ollama_probe candidates seen b) = Returned None ->
          forall c, c ∈ candidates -> c <> EmptyString -> c ∈ seen \/ c ∈ P)
    /\ (forall e, fst (select_from ollama_probe candidates seen b) = Raised e ->
          is_Exception (exc_class e) = false).
Proof.
  revert seen b. induction candidates as [| c rest IH]; intros seen b; cbn.
  - exists []. rewrite app_nil_r.
    split; [| split; [| split; [| split; [| split; [| split]]]]].
    + reflexivity.
    + constructor.
    + constructor.
    + constructor.
    + intros c0 Hc0. discriminate.
    + intros _ c0 Hin. apply elem_of_nil in Hin. contradiction.
    + intros e He. discriminate.
  - destruct (String.eqb c EmptyString || existsb (String.eqb c) seen) eqn:Hskip.
    + destruct (IH seen b) as (P & Hp & Hsub & Hall & Hnd & Hsome & Hnone & Hraise).
      exists P.
      split; [| split; [| split; [| split; [| split; [| split]]]]]; try assumption.
      * apply sublist_cons. exact Hsub.
      * intros c0 Hc0. destruct (Hsome c0 Hc0) as (Hin & Hne & Hlast & Hans).
        split; [apply elem_of_cons; right; exact Hin |]. auto.
      * intros Hn c0 Hin Hne. apply elem_of_cons in Hin as [-> | Hin].
        -- apply orb_true_iff in Hskip as [Hempty | Hseen].
           ++ apply String.eqb_eq in Hempty. contradiction.
           ++ left. apply existsb_eqb_elem_of. exact Hseen.
        -- apply (Hnone Hn c0 Hin Hne).
    + apply orb_false_iff in Hskip as [Hempty Hseen].
      assert (Hc : c <> EmptyString) by (apply String.eqb_neq; exact Hempty).
      assert (Hfresh : c ∉ seen).
      { intros Hin. apply existsb_eqb_elem_of in Hin. congruence. }
      pose proof (try_model_probe_spec c
                    (boot_write ("[Comprobando modelo] " +:+ c +:+ "... ") b) Hc)
        as (Hprobe & Hexc & Hans).
      rewrite probes_of_boot_write in Hprobe.
      destruct (try_model_probe ollama_probe c _) as [[[|] | e] b1]; cbn [fst snd] in *.
      * exists [c]. rewrite probes_of_boot_print.
        split; [| split; [| split; [| split; [| split; [| split]]]]].
        -- exact Hprobe.
        -- apply sublist_skip, sublist_nil_l.
        -- repeat constructor; assumption.
        -- repeat constructor. intros Hin. apply elem_of_nil in Hin. contradiction.
        -- intros c0 Hc0. inversion Hc0; subst.
           split; [apply elem_of_cons; left; reflexivity |].
           split; [exact Hc |]. split; [reflexivity |].
           destruct (Hans eq_refl) as (v & n & Hv). eauto.
        -- intros Hn. discriminate.
        -- intros e He. discriminate.
      * destruct (IH (seen ++ [c]) (boot_print "NO disponible" b1))
          as (P & Hp & Hsub & Hall & Hnd & Hsome & Hnone & Hraise).
        rewrite probes_of_boot_print, Hprobe, <- app_assoc in Hp.
        assert (HcP : c ∉ P).
        { intros Hin. rewrite Forall_forall in Hall.
          destruct (Hall c Hin) as [_ Hnot]. apply Hnot, elem_of_app. right.
          apply elem_of_cons. left. reflexivity. }
        exists (c :: P).
        split; [| split; [| split; [| split; [| split; [| split]]]]]; try assumption.
        -- apply sublist_skip. exact Hsub.
        -- constructor; [split; assumption |].
           eapply Forall_impl; [exact Hall |]. cbn. intros x [Hx Hnot]. split; [exact Hx |].
           intros Hin. apply Hnot, elem_of_app. left. exact Hin.
        -- constructor; assumption.
        -- intros c0 Hc0. destruct (Hsome c0 Hc0) as (Hin & Hne & Hlast & Hans').
           split; [apply elem_of_cons; right; exact Hin |].
           split; [exact Hne |]. split; [| exact Hans'].
           destruct P as [| p P']; [discriminate |]. exact Hlast.
        -- intros Hn c0 Hin Hne. apply elem_of_cons in Hin as [-> | Hin].
           ++ right. apply elem_of_cons. left. reflexivity.
           ++ destruct (Hnone Hn c0 Hin Hne) as [Hs | Hp'].
              ** apply elem_of_app in Hs as [Hs | Hs]; [left; exact Hs |].
                 apply elem_of_cons in Hs as [-> | Hs];
                   [right; apply elem_of_cons; left; reflexivity |].
                 apply elem_of_nil in Hs. contradiction.
              ** right. apply elem_of_cons. right. exact Hp'.
      * exists [c].
        split; [| split; [| split; [| split; [| split; [| split]]]]].
        -- exact Hprobe.
        -- apply sublist_skip, sublist_nil_l.
        -- repeat constructor; assumption.
        -- repeat constructor. intros Hin. apply elem_of_nil in Hin. contradiction.
        -- intros c0 Hc0. discriminate.
        -- intros Hn. discriminate.
        -- intros e' He'. inversion He'; subst. apply Hexc. reflexivity.
Qed.

(** X1. [select_working_model] asks the backend about each candidate at
    most once: the models probed are pairwise distinct and non-empty, and
    they are candidates, in the order of the list. *)
Theorem select_working_model_probes_once (candidates : list string) (b : Boot) :
  exists P : list string,
    probes_of (boot_trace (snd (select_working_model ollama_probe candidates b)))
      = probes_of (boot_trace b) ++ P
    /\ NoDup P
    /\ P `sublist_of` candidates
    /\ Forall (fun c => c <> EmptyString) P.
Proof.
  destruct (select_from_spec candidates [] b) as (P & Hp & Hsub & Hall & Hnd & _).
  exists P. split; [exact Hp |]. split; [exact Hnd |]. split; [exact Hsub |].
  eapply Forall_impl; [exact Hall |]. cbn. tauto.
Qed.

(** X2. The model that [select_working_model] returns is a non-empty
    candidate, it is the last model that was probed, and the backend
    answered its probe. *)
Theorem select_working_model_chosen (candidates : list string) (b : Boot) (c : string) :
  fst (select_working_model ollama_probe candidates b) = Returned (Some c) ->
  c ∈ candidates
  /\ c <> EmptyString
  /\ last (probes_of (boot_trace (snd (select_working_model ollama_probe candidates b))))
       = Some c
  /\ exists v n n', ollama_probe c n = (Returned v, n').
Proof.
  intros Hsel.
  destruct (select_from_spec candidates [] b) as (P & Hp & _ & _ & _ & Hsome & _).
  destruct (Hsome c Hsel) as (Hin & Hne & Hlast & Hans).
  split; [exact Hin |]. split; [exact Hne |]. split; [| exact Hans].
  unfold select_working_model. rewrite Hp, last_app, Hlast. reflexivity.
Qed.

(** X3. [select_working_model] returns [None] only after it has probed
    every non-empty candidate. *)
Theorem select_working_model_none (candidates : list string) (b : Boot) :
  fst (select_working_model ollama_probe candidates b) = Returned None ->
  exists P : list string,
    probes_of (boot_trace (snd (select_working_model ollama_probe candidates b)))
      = probes_of (boot_trace b) ++ P
    /\ forall c, c ∈ candidates -> c <> EmptyString -> c ∈ P.
Proof.
  intros Hsel.
  destruct (select_from_spec candidates [] b) as (P & Hp & _ & _ & _ & _ & Hnone & _).
  exists P. split; [exact Hp |].
  intros c Hin Hne. destruct (Hnone Hsel c Hin Hne) as [Hseen | Hc]; [| exact Hc].
  apply elem_of_nil in Hseen. contradiction.
Qed.

Lemma try_model_probe_works (works : string -> bool) (c : string) (b : Boot) :
  (forall c n, match fst (ollama_probe c n) with
               | Returned _ => works c = true
               | Raised e => works c = false /\ is_Exception (exc_class e) = true
               end) ->
  c <> EmptyString ->
  fst (try_model_probe ollama_probe c b) = Returned (works c).
Proof.
  intros Hworks Hc. unfold try_model_probe.
  destruct (String.eqb c EmptyString) eqn:Hempty;
    [apply String.eqb_eq in Hempty; contradiction |].
  specialize (Hworks c (boot_net b)).
  destruct (ollama_probe c (boot_net b)) as [[v | e] n]; cbn in *.
  - rewrite Hworks. reflexivity.
  - destruct Hworks as [-> ->]. reflexivity.
Qed.

Lemma select_from_is_find (works : string -> bool) (candidates seen : list string)
    (b : Boot) :
  (forall c n, match fst (ollama_probe c n) with
               | Returned _ => works c = true
               | Raised e => works c = false /\ is_Exception (exc_class e) = true
               end) ->
  Forall (fun c => works c = false) seen ->
  fst (select_from ollama_probe candidates seen b)
  = Returned (List.find (fun c => negb (String.eqb c EmptyString) && works c) candidates).
Proof.
  intros Hworks. revert seen b.
  induction candidates as [| c rest IH]; intros seen b Hseen; cbn; [reflexivity |].
  destruct (String.eqb c EmptyString) eqn:Hempty; cbn; [apply IH; exact Hseen |].
  destruct (existsb (String.eqb c) seen) eqn:Hin.
  - apply existsb_eqb_elem_of in Hin. rewrite Forall_forall in Hseen.
    rewrite (Hseen c Hin). apply IH. apply Forall_forall. exact Hseen.
  - assert (Hc : c <> EmptyString) by (apply String.eqb_neq; exact Hempty).
    pose proof (try_model_probe_works works c
                  (boot_write ("[Comprobando modelo] " +:+ c +:+ "... ") b) Hworks Hc)
      as Hprobe.
    destruct (try_model_probe ollama_probe c _) as [r b1]. cbn in Hprobe. subst r.
    destruct (works c) eqn:Hw; [reflexivity |].
    apply IH. apply Forall_app. split; [exact Hseen |]. repeat constructor. exact Hw.
Qed.

(** X4. When whether a model answers depends on its name alone,
    [select_working_model] returns the first non-empty candidate that
    answers, and [None] when there is none. *)
Theorem select_working_model_is_find (works : string -> bool)
    (candidates : list string) (b : Boot) :
  (forall c n, match fst (ollama_probe c n) with
               | Returned _ => works c = true
               | Raised e => works c = false /\ is_Exception (exc_class e) = true
               end) ->
  fst (select_working_model ollama_probe candidates b)
  = Returned (List.find (fun c => negb (String.eqb c EmptyString) && works c) candidates).
Proof.
  intros Hworks. apply (select_from_is_find works candidates [] b Hworks). constructor.
Qed.

(** X5. The start of [main] ends in one of three ways: with a model that
    is one of the five candidates; with exit status 1 after no candidate
    answered; or with an exception from outside [Exception] that a probe
    raised.  A failure of the backend within [Exception] never leaves it,
    and the backend is asked at most five times. *)
Theorem main_startup_outcomes (model : string) (b : Boot) :
  match fst (main_startup ollama_probe model b) with
  | Returned (Chosen c) => c ∈ model_candidates model /\ c <> EmptyString
  | Returned (Exit code) =>
      code = 1%Z
      /\ fst (select_working_model ollama_probe (model_candidates model) b) = Returned None
  | Raised e => is_Exception (exc_class e) = false
  end
  /\ exists P : list string,
       probes_of (boot_trace (snd (main_startup ollama_probe model b)))
         = probes_of (boot_trace b) ++ P
       /\ length P <= 5.
Proof.
  unfold main_startup, select_working_model.
  destruct (select_from_spec (model_candidates model) [] b)
    as (P & Hp & Hsub & _ & _ & Hsome & _ & Hraise).
  assert (Hlen : length P <= 5) by (apply sublist_length in Hsub; exact Hsub).
  assert (Hhelp : forall b1, probes_of (boot_trace (print_model_help model b1))
                             = probes_of (boot_trace b1)).
  { intros b1. unfold print_model_help. cbn [fold_left].
    rewrite !probes_of_boot_print. reflexivity. }
  destruct (select_from ollama_probe (model_candidates model) [] b)
    as [[[c |] | e] b1]; cbn [fst snd] in *.
  - destruct (Hsome c eq_refl) as (Hin & Hne & _).
    destruct (String.eqb c EmptyString) eqn:Hempty;
      [apply String.eqb_eq in Hempty; contradiction |].
    cbn [fst snd]. split; [split; assumption |].
    exists P. rewrite !probes_of_boot_print. split; assumption.
  - split; [split; reflexivity |]. exists P. rewrite Hhelp. split; assumption.
  - split; [apply Hraise; reflexivity |]. exists P. split; assumption.
Qed.

Lemma contains_char_default_model (ch : ascii) :
  In ch ["/"%char; bslash; " "%char] -> contains_char ch "qwen3:8b" = false.
Proof. intros [<- | [<- | [<- | []]]]; reflexivity. Qed.

(** X6. Whatever the environment variable holds, the model name in force
    after loading the module is not empty and contains no slash, no
    backslash and no space; a value that is rejected is replaced by
    [qwen3:8b] with one warning, an accepted one is taken silently. *)
Theorem MODEL_is_plausible (env_model : option string) (b : Boot) :
  let name := fst (MODEL str_isdigit env_model b) in
  name <> EmptyString
  /\ contains_char "/"%char name = false
  /\ contains_char bslash name = false
  /\ contains_char " "%char name = false
  /\ (name = default "qwen3:8b" env_model /\ snd (MODEL str_isdigit env_model b) = b
      \/ name = "qwen3:8b"
         /\ exists warning, snd (MODEL str_isdigit env_model b) = boot_print warning b).
Proof.
  unfold MODEL.
  destruct (_looks_like_model_name str_isdigit (default "qwen3:8b" env_model)) eqn:Hok;
    cbn [fst snd].
  - unfold _looks_like_model_name in Hok.
    apply andb_true_iff in Hok as [Hok Hchars].
    apply andb_true_iff in Hok as [Hne _].
    apply negb_true_iff in Hne, Hchars.
    cbn in Hchars. rewrite orb_false_r in Hchars.
    apply orb_false_iff in Hchars as [Hslash Hchars].
    apply orb_false_iff in Hchars as [Hback Hspace].
    repeat split; try assumption.
    + apply String.eqb_neq. exact Hne.
    + left. split; reflexivity.
  - repeat split; try reflexivity; try discriminate.
    right. split; [reflexivity |]. eexists. reflexivity.
Qed.

End StartupFacts.

(** ** Dispatch and the tools together (main.py, lines 98-116; tools.py) *)

Section DispatchFurther.
Context `{Externals}.

Lemma outside_trace {A} (f : Net -> Outcome A * Net) (w : World) :
  trace (snd (outside f w)) = trace w.
Proof. unfold outside. destruct (f (net w)) as [r n]. reflexivity. Qed.

Lemma outside_files {A} (f : Net -> Outcome A * Net) (w : World) :
  files (snd (outside f w)) = files w.
Proof. unfold outside. destruct (f (net w)) as [r n]. reflexivity. Qed.

Lemma open_append_trace (fn : string) (w : World) : trace (open_append fn w) = trace w.
Proof. unfold open_append. destruct (files w !! fn); reflexivity. Qed.

Lemma write_append_trace (fn d : string) (w : World) : trace (write_append fn d w) = trace w.
Proof. unfold write_append. destruct (files w !! fn); reflexivity. Qed.

Lemma save_text_to_file_trace (data filename : PyVal) (w : World) :
  trace (snd (save_text_to_file data filename w)) = trace w.
Proof.
  unfold save_text_to_file.
  destruct filename as [ | b | z | fn | xs | d]; try reflexivity; try apply outside_trace.
  destruct (open_append_denied fn (net w)); [reflexivity |].
  destruct data; cbn; rewrite ?write_append_trace; apply open_append_trace.
Qed.

(** The world after [execute_tool_call], read off its definition. *)
Lemma execute_tool_call_world (call : PyVal) (w : World) :
  snd (execute_tool_call call w) = w
  \/ exists (name args : PyVal) (n : string) (func : PyFunc),
       read_call call = Returned (name, args)
       /\ name = PStr n
       /\ TOOL_FUNCS !! n = Some func
       /\ snd (execute_tool_call call w)
          = snd (invoke func args (emit (EvPrint (execution_notice name args)) w)).
Proof.
  unfold execute_tool_call.
  destruct (read_call call) as [[name args] | e] eqn:Hread;
    [| destruct (is_KeyError (exc_class e)); left; reflexivity].
  destruct name as [ | b | z | n | xs | d]; cbn; try (left; reflexivity).
  destruct (TOOL_FUNCS !! n) as [func |] eqn:Hreg; [| left; reflexivity].
  right. exists (PStr n), args, n, func. repeat split; try assumption.
  destruct (invoke func args _) as [[result | e] w2]; cbn; [reflexivity |].
  unfold on_tool_exception. destruct (is_Exception (exc_class e)); reflexivity.
Qed.

(** X9. A finance search through the dispatcher: the provider is asked
    for the query behind the fixed site restriction; its answer comes
    back as text, and its failure within [Exception] comes back as the
    report of that failure.  The notice is printed, the body is entered
    once, and only the outside world changes. *)
Theorem search_yf_through_dispatch (q : string) (w : World) :
  execute_tool_call (request "search_yf" (PDict [("query", PStr q)])) w
  = let args := PDict [("query", PStr q)] in
    let w1 := emit (EvRun "search_yf" [("query", PStr q)])
                (emit (EvPrint (execution_notice (PStr "search_yf") args)) w) in
    match ddg_news_run (PStr ("site:finance.yahoo.com " +:+ q)) (net w) with
    | (Returned v, n) => (Returned (py_str v), with_net n w1)
    | (Raised e, n) =>
        if is_Exception (exc_class e)
        then (Returned (tool_failure_error (PStr "search_yf") e), with_net n w1)
        else (Raised e, with_net n w1)
    end.
Proof.
  rewrite (execute_tool_call_registered _ (PStr "search_yf") (PDict [("query", PStr q)])
             "search_yf" search_yf_fn w (read_call_request _ _) eq_refl eq_refl).
  unfold invoke. cbn. unfold search_yf, outside. cbn.
  destruct (ddg_news_run _ (net w)) as [[v | e] n]; cbn; [reflexivity |].
  unfold on_tool_exception. destruct (is_Exception (exc_class e)); reflexivity.
Qed.

(** X10. A request to save that gives no file name appends its text to
    [research_output.txt] and is answered with the confirmation naming
    that file. *)
Theorem save_through_dispatch_default_filename (d : string) (w : World) :
  open_append_denied "research_output.txt" (net w) = None ->
  let r := execute_tool_call (request "save_text_to_file" (PDict [("data", PStr d)])) w in
  fst r = Returned "Data successfully saved to research_output.txt"
  /\ files (snd r) !! "research_output.txt"
     = Some (default EmptyString (files w !! "research_output.txt") +:+ d).
Proof.
  intros Hok r. subst r.
  rewrite (execute_tool_call_registered _ (PStr "save_text_to_file")
             (PDict [("data", PStr d)]) "save_text_to_file" save_text_to_file_fn w
             (read_call_request _ _) eq_refl eq_refl).
  unfold invoke. cbn. rewrite Hok. cbn. split; [reflexivity |].
  unfold write_append. rewrite open_append_lookup. cbn. apply lookup_insert_eq.
Qed.

Lemma dict_lookup_In (k : string) (kvs : list (string * PyVal)) (v : PyVal) :
  dict_lookup k kvs = Some v -> In (k, v) kvs.
Proof.
  induction kvs as [| [k' v'] kvs IH]; cbn; [discriminate |].
  destruct (String.eqb k k') eqn:Hk.
  - apply String.eqb_eq in Hk. intros Hv. inversion Hv; subst. left. reflexivity.
  - intros Hv. right. apply IH. exact Hv.
Qed.

(** X11. A request for a registered tool that carries an argument the
    tool does not take is announced and answered with the report of a
    [TypeError]; the body of the tool is not entered. *)
Theorem unexpected_argument_rejected
    (call : PyVal) (n : string) (func : PyFunc) (kvs : list (string * PyVal))
    (k : string) (v : PyVal) (w : World) :
  read_call call = Returned (PStr n, PDict kvs) ->
  TOOL_FUNCS !! n = Some func ->
  dict_lookup k kvs = Some v ->
  is_param func k = false ->
  exists e,
    exc_class e = TypeError
    /\ execute_tool_call call w
       = (Returned (tool_failure_error (PStr n) e),
          emit (EvPrint (execution_notice (PStr n) (PDict kvs))) w).
Proof.
  intros Hread Hreg Hk Hparam.
  rewrite (execute_tool_call_registered call (PStr n) (PDict kvs) n func w Hread eq_refl Hreg).
  unfold invoke, bind_kwargs.
  destruct (List.find (fun kv => negb (is_param func (fst kv))) kvs) as [kv |] eqn:Hfind.
  - eexists. split; [| reflexivity]. reflexivity.
  - exfalso. apply dict_lookup_In in Hk.
    pose proof (find_none _ _ Hfind (k, v) Hk) as Hno. cbn in Hno.
    rewrite Hparam in Hno. discriminate.
Qed.

(** X12. The registry and the descriptors agree: a name is registered
    exactly when it is advertised, and for every registered function the
    descriptor of its name lists as properties the parameters of the
    function and as required those that have no default. *)
Theorem registry_matches_descriptors :
  (forall n : string, is_Some (TOOL_FUNCS !! n) <-> n ∈ advertised_names)
  /\ (forall (n : string) (func : PyFunc),
        TOOL_FUNCS !! n = Some func ->
        exists spec,
          schema_of n = Some spec
          /\ spec_properties spec = param_names func
          /\ spec_required spec = params_without_default func).
Proof.
  split.
  - intros n. split.
    + intros [func Hreg]. apply TOOL_FUNCS_lookup_Some in Hreg.
      rewrite advertised_names_eq.
      destruct Hreg as [[-> _] | [[-> _] | [[-> _] | [[-> _] | [-> _]]]]];
        repeat (first [apply list_elem_of_here | apply list_elem_of_further]).
    + intros Hin. destruct (advertised_is_registered n Hin) as (func & Hget & _).
      exists func. cbn in Hget. inversion Hget. reflexivity.
  - intros n func Hreg. apply TOOL_FUNCS_lookup_Some in Hreg.
    destruct Hreg as [[-> ->] | [[-> ->] | [[-> ->] | [[-> ->] | [-> ->]]]]];
      eexists; (split; [reflexivity |]); split; reflexivity.
Qed.

End DispatchFurther.

(** ** The conversation loop, further (main.py, lines 134-186) *)

Section LoopFurther.
Context `{Externals}.

Lemma run_terminal (k : nat) (s : Session) :
  phase s = Ended \/ phase s = Crashed -> run k s = s.
Proof.
  intros Hs. induction k as [| k IH]; cbn; [reflexivity |].
  assert (Hstep : step s = s) by (unfold step; destruct Hs as [-> | ->]; reflexivity).
  rewrite Hstep. exact IH.
Qed.

Lemma Exception_is_not_interrupt (c : ExcClass) :
  is_Exception c = true -> is_KeyboardInterrupt c = false.
Proof. destruct c; cbn; congruence. Qed.

Lemma model_calls_app (t1 t2 : list Event) :
  model_calls (t1 ++ t2) = model_calls t1 ++ model_calls t2.
Proof. unfold model_calls. apply flat_map_app. Qed.

Lemma leave_loop_model_calls (e : Exc) (msgs : list PyVal) (flag : bool)
    (lines : list string) (w : World) :
  model_calls (trace (world (leave_loop e msgs flag lines w))) = model_calls (trace w).
Proof.
  unfold leave_loop.
  destruct (is_KeyboardInterrupt (exc_class e)); cbn;
    [rewrite model_calls_app; apply app_nil_r |].
  destruct (is_Exception (exc_class e)); cbn; [| reflexivity].
  rewrite !model_calls_app. cbn. rewrite !app_nil_r. reflexivity.
Qed.

Lemma model_calls_console (texts : list string) :
  model_calls (map EvConsole texts) = [].
Proof. induction texts as [| t texts IH]; [reflexivity | exact IH]. Qed.

(** What executed code writes to the console is no request of
    [call_agent]. *)
Lemma code_exec_model_calls (code : PyVal) (w : World) :
  model_calls (trace (snd (code_exec code w))) = model_calls (trace w).
Proof.
  unfold code_exec.
  assert (He : trace (_ensure_exec_env w) = trace w)
    by (unfold _ensure_exec_env; destruct (decide _); reflexivity).
  destruct (py_exec _ _ _ _) as [r n].
  assert (Hw : model_calls (trace (with_net n
                 (emit_all (map EvConsole (ex_console r))
                    (with_files (ex_files r)
                       (with_globals (ex_env r) (_ensure_exec_env w))))))
               = model_calls (trace w)).
  { cbn. rewrite He, model_calls_app, model_calls_console. apply app_nil_r. }
  destruct (ex_exc r) as [e |]; [destruct (is_Exception (exc_class e)) |]; exact Hw.
Qed.

Lemma fn_body_model_calls (n : string) (func : PyFunc) (bound : list (string * PyVal))
    (w : World) :
  TOOL_FUNCS !! n = Some func ->
  model_calls (trace (snd (fn_body func bound w))) = model_calls (trace w).
Proof.
  intros Hreg. apply TOOL_FUNCS_lookup_Some in Hreg.
  destruct Hreg as [[-> ->] | [[-> ->] | [[-> ->] | [[-> ->] | [-> ->]]]]];
    cbn [fn_body search_web_fn search_yf_fn wikipedia_lookup_fn
         save_text_to_file_fn code_exec_fn].
  - unfold search_web. rewrite outside_trace. reflexivity.
  - unfold search_yf. rewrite outside_trace. reflexivity.
  - unfold wikipedia_lookup. rewrite outside_trace. reflexivity.
  - rewrite save_text_to_file_trace. reflexivity.
  - apply code_exec_model_calls.
Qed.

Lemma execute_tool_call_model_calls (call : PyVal) (w : World) :
  model_calls (trace (snd (execute_tool_call call w))) = model_calls (trace w).
Proof.
  destruct (execute_tool_call_world call w)
    as [-> | (name & args & n & func & _ & _ & Hreg & ->)]; [reflexivity |].
  unfold invoke. destruct (bind_kwargs func args) as [bound | e]; cbn.
  - rewrite (fn_body_model_calls n func bound _ Hreg). cbn.
    rewrite !model_calls_app. cbn. rewrite !app_nil_r. reflexivity.
  - rewrite model_calls_app. apply app_nil_r.
Qed.

Lemma run_tool_calls_model_calls (calls msgs : list PyVal) (w : World) :
  model_calls (trace (run_tool_calls calls msgs w).2) = model_calls (trace w).
Proof.
  revert msgs w. induction calls as [| call rest IH]; intros msgs w; cbn; [reflexivity |].
  pose proof (execute_tool_call_model_calls call w) as Hc.
  destruct (execute_tool_call call w) as [[tool_output | e] w1]; cbn in Hc |- *.
  - rewrite IH. exact Hc.
  - exact Hc.
Qed.

Lemma call_agent_model_calls (msgs : list PyVal) (w : World) :
  model_calls (trace (snd (call_agent msgs w))) = model_calls (trace w) ++ [msgs].
Proof.
  unfold call_agent, outside. cbn.
  destruct (ollama_chat msgs (net w)) as [[response | e] n]; cbn.
  - rewrite model_calls_app. reflexivity.
  - destruct (is_Exception (exc_class e)); cbn; rewrite !model_calls_app; cbn;
      rewrite ?app_nil_r; reflexivity.
Qed.

Lemma model_turn_model_calls (s : Session) :
  model_calls (trace (world (model_turn s)))
  = model_calls (trace (world s)) ++ [messages s].
Proof.
  unfold model_turn.
  pose proof (call_agent_model_calls (messages s) (world s)) as Hc.
  destruct (call_agent (messages s) (world s)) as [[response | e] w1]; cbn in Hc;
    [| rewrite leave_loop_model_calls; exact Hc].
  destruct (response_field response "tool_calls" (PList [])) as [tool_calls | e];
    [| rewrite leave_loop_model_calls; exact Hc].
  destruct (truthy tool_calls).
  - destruct (py_iter tool_calls) as [calls | e];
      [| rewrite leave_loop_model_calls; exact Hc].
    pose proof (run_tool_calls_model_calls calls (messages s) w1) as Hr.
    destruct (run_tool_calls calls (messages s) w1) as [[[e |] msgs'] w2]; cbn in Hr |- *;
      rewrite ?leave_loop_model_calls, Hr; exact Hc.
  - destruct (response_field response "content" (PStr EmptyString))
      as [assistant_response | e]; [| rewrite leave_loop_model_calls; exact Hc].
    destruct (truthy assistant_response); cbn; rewrite model_calls_app; cbn;
      rewrite app_nil_r; exact Hc.
Qed.

Lemma await_user_model_calls (s : Session) :
  model_calls (trace (world (await_user s))) = model_calls (trace (world s)).
Proof.
  unfold await_user. destruct (stdin s) as [| line rest].
  - rewrite leave_loop_model_calls. cbn. rewrite model_calls_app. apply app_nil_r.
  - destruct (_ || _); cbn; rewrite model_calls_app; apply app_nil_r.
Qed.

(** X13. One pass through the inner loop sends exactly one request to the
    model, and that request carries the whole history held at that
    moment, however the pass ends; reading the user's line sends none. *)
Theorem one_model_call_per_pass (s : Session) :
  model_calls (trace (world (step s)))
  = model_calls (trace (world s))
    ++ match phase s with ModelTurn => [messages s] | _ => [] end.
Proof.
  unfold step. destruct (phase s).
  - rewrite await_user_model_calls, app_nil_r. reflexivity.
  - apply model_turn_model_calls.
  - rewrite app_nil_r. reflexivity.
  - rewrite app_nil_r. reflexivity.
Qed.

Lemma step_keeps_histories_sent (s : Session) :
  histories_sent_are_prefixes s -> histories_sent_are_prefixes (step s).
Proof.
  intros [Hhead Hsent]. pose proof (step_prefix s) as Hp.
  split; [exact (prefix_keeps_head _ _ _ Hp Hhead) |].
  assert (Hold : Forall (fun h => h `prefix_of` messages (step s)
                                  /\ head h = Some system_message)
                        (model_calls (trace (world s)))).
  { eapply Forall_impl; [exact Hsent |]. cbn. intros h [Hh Hsys].
    split; [etransitivity; eassumption | exact Hsys]. }
  unfold step in *. destruct (phase s).
  - rewrite await_user_model_calls. exact Hold.
  - rewrite model_turn_model_calls. apply Forall_app. split; [exact Hold |].
    repeat constructor; assumption.
  - exact Hold.
  - exact Hold.
Qed.

Lemma run_keeps_histories_sent (k : nat) (s : Session) :
  histories_sent_are_prefixes s -> histories_sent_are_prefixes (run k s).
Proof.
  revert s. induction k as [| k IH]; intros s Hs; cbn; [exact Hs |].
  apply IH, step_keeps_histories_sent, Hs.
Qed.

(** X14. The model always sees the conversation so far: at every moment
    of a session, each history that has been sent to the model starts
    with the system prompt and is an initial segment of the history held
    now. *)
Theorem model_sees_whole_history (lines : list string) (w : World) (k : nat) :
  model_calls (trace w) = [] ->
  Forall (fun h => h `prefix_of` messages (main k lines w)
                   /\ head h = Some system_message)
         (model_calls (trace (world (main k lines w)))).
Proof.
  intros Hfresh.
  apply (run_keeps_histories_sent k (start lines w)).
  split; [reflexivity |]. cbn. rewrite Hfresh. constructor.
Qed.

Lemma step_appends_turn_messages (s : Session) :
  exists added : list PyVal,
    messages (step s) = messages s ++ added
    /\ Forall (fun m => is_turn_message m = true) added.
Proof.
  assert (Hnone : exists added : list PyVal,
            messages s = messages s ++ added
            /\ Forall (fun m => is_turn_message m = true) added)
    by (exists []; split; [rewrite app_nil_r; reflexivity | constructor]).
  unfold step. destruct (phase s); try exact Hnone.
  - unfold await_user. destruct (stdin s) as [| line rest].
    + rewrite leave_loop_messages. exact Hnone.
    + destruct (_ || _); cbn; [exact Hnone |].
      eexists. split; [reflexivity |]. repeat constructor.
  - unfold model_turn.
    destruct (call_agent (messages s) (world s)) as [[response | e] w1];
      [| rewrite leave_loop_messages; exact Hnone].
    destruct (response_field response "tool_calls" (PList [])) as [tool_calls | e];
      [| rewrite leave_loop_messages; exact Hnone].
    destruct (truthy tool_calls).
    + destruct (py_iter tool_calls) as [calls | e];
        [| rewrite leave_loop_messages; exact Hnone].
      destruct (run_tool_calls_appends calls (messages s) w1) as (outputs & Hmsgs & _).
      assert (Hturn : Forall (fun m => is_turn_message m = true) (map tool_message outputs)).
      { apply Forall_forall. intros m Hm. apply list_elem_of_fmap in Hm as (o & -> & _).
        reflexivity. }
      destruct (run_tool_calls calls (messages s) w1) as [[[e |] msgs'] w2];
        cbn in Hmsgs |- *; rewrite ?leave_loop_messages; eauto.
    + destruct (response_field response "content" (PStr EmptyString))
        as [assistant_response | e]; [| rewrite leave_loop_messages; exact Hnone].
      destruct (truthy assistant_response); cbn; [| exact Hnone].
      eexists. split; [reflexivity |]. repeat constructor.
Qed.

(** X15. At every moment of a session the history is the system message
    followed by messages whose role is user, assistant or tool: the
    system prompt occurs once, at the head. *)
Theorem history_roles (lines : list string) (w : World) (k : nat) :
  exists rest : list PyVal,
    messages (main k lines w) = system_message :: rest
    /\ Forall (fun m => is_turn_message m = true) rest.
Proof.
  unfold main.
  assert (Hgen : forall s, (exists rest, messages s = system_message :: rest
                              /\ Forall (fun m => is_turn_message m = true) rest) ->
                 exists rest, messages (run k s) = system_message :: rest
                              /\ Forall (fun m => is_turn_message m = true) rest).
  { induction k as [| k IH]; intros s Hs; cbn; [exact Hs |].
    apply IH. destruct Hs as (rest & Hmsgs & Hrest).
    destruct (step_appends_turn_messages s) as (added & Hadd & Hturn).
    exists (rest ++ added). split; [rewrite Hadd, Hmsgs; reflexivity |].
    apply Forall_app. split; assumption. }
  apply Hgen. exists []. split; [reflexivity | constructor].
Qed.

(** X16. The [for] loop over the requests of a response appends tool
    messages only, one per request answered: as many as there are
    requests when it runs to its end, fewer when an exception leaves it,
    and in that case the messages appended before stay in the history. *)
Theorem tool_messages_one_per_request (calls msgs : list PyVal) (w : World) :
  exists outputs : list string,
    (run_tool_calls calls msgs w).1.2 = msgs ++ map tool_message outputs
    /\ match (run_tool_calls calls msgs w).1.1 with
       | None => length outputs = length calls
       | Some e => length outputs < length calls
                   /\ exists call w1, call ∈ calls
                                       /\ fst (execute_tool_call call w1) = Raised e
       end.
Proof.
  revert msgs w. induction calls as [| call rest IH]; intros msgs w; cbn.
  - exists []. split; [rewrite app_nil_r; reflexivity | reflexivity].
  - destruct (execute_tool_call call w) as [[tool_output | e] w1] eqn:Hcall; cbn.
    + destruct (IH (msgs ++ [tool_message tool_output]) w1) as (outputs & Hmsgs & Hlen).
      exists (tool_output :: outputs). split.
      * rewrite Hmsgs, <- app_assoc. reflexivity.
      * destruct (run_tool_calls rest _ w1).1.1; cbn; [| lia].
        destruct Hlen as (Hlt & c & wc & Hin & Hc). split; [lia |].
        exists c, wc. split; [apply elem_of_cons; right; exact Hin | exact Hc].
    + exists []. split; [rewrite app_nil_r; reflexivity |]. split; [cbn; lia |].
      exists call, w. split; [apply elem_of_cons; left; reflexivity |].
      rewrite Hcall. reflexivity.
Qed.

(** X17. A line that is empty once stripped, or that reads quit or exit
    in lower case, ends the session at once: the history is as it was,
    only the prompt was written, and no request ever reaches the model,
    however long the loop is followed. *)
Theorem exit_word_ends_session
    (s : Session) (line : string) (rest : list string) (k : nat) :
  phase s = AwaitingUser ->
  stdin s = line :: rest ->
  str_strip line = EmptyString
    \/ str_lower (str_strip line) = "quit" \/ str_lower (str_strip line) = "exit" ->
  run (S k) s
  = {| phase := Ended; messages := messages s; tools_executed := tools_executed s;
       stdin := rest;
       world := emit (EvPrompt " > Inserte su consulta aquí: ") (world s) |}.
Proof.
  intros Hphase Hin Hword. cbn [run].
  assert (Hstep : step s
                  = {| phase := Ended; messages := messages s;
                       tools_executed := tools_executed s; stdin := rest;
                       world := emit (EvPrompt " > Inserte su consulta aquí: ") (world s) |}).
  { unfold step. rewrite Hphase. unfold await_user. rewrite Hin.
    assert (Hexit : String.eqb (str_strip line) EmptyString
                    || is_exit_word (str_strip line) = true).
    { unfold is_exit_word. destruct Hword as [-> | [-> | ->]]; cbn;
        rewrite ?orb_true_r; reflexivity. }
    rewrite Hexit. reflexivity. }
  rewrite Hstep. apply run_terminal. left. reflexivity.
Qed.

(** X18. Any other line is appended, stripped, as a user message, and the
    next step sends the model the history that ends with it. *)
Theorem user_line_is_sent_to_model (s : Session) (line : string) (rest : list string) :
  phase s = AwaitingUser ->
  stdin s = line :: rest ->
  str_strip line <> EmptyString ->
  str_lower (str_strip line) <> "quit" ->
  str_lower (str_strip line) <> "exit" ->
  step s
  = {| phase := ModelTurn; messages := messages s ++ [user_message (str_strip line)];
       tools_executed := false; stdin := rest;
       world := emit (EvPrompt " > Inserte su consulta aquí: ") (world s) |}
  /\ model_calls (trace (world (step (step s))))
     = model_calls (trace (world s)) ++ [messages s ++ [user_message (str_strip line)]].
Proof.
  intros Hphase Hin Hne Hquit Hexit.
  assert (Hstep : step s
                  = {| phase := ModelTurn;
                       messages := messages s ++ [user_message (str_strip line)];
                       tools_executed := false; stdin := rest;
                       world := emit (EvPrompt " > Inserte su consulta aquí: ") (world s) |}).
  { unfold step. rewrite Hphase. unfold await_user. rewrite Hin.
    apply String.eqb_neq in Hne, Hquit, Hexit.
    unfold is_exit_word. rewrite Hne, Hquit, Hexit. reflexivity. }
  split; [exact Hstep |].
  rewrite Hstep. unfold step at 1. cbn [phase].
  rewrite model_turn_model_calls. cbn. rewrite model_calls_app. cbn.
  rewrite app_nil_r. reflexivity.
Qed.

(** X19. At the end of the input the prompt is written, [input] raises
    [EOFError], and the generic handler prints it and ends the session
    with the history as it was. *)
Theorem end_of_input_ends_session (s : Session) (k : nat) :
  phase s = AwaitingUser ->
  stdin s = [] ->
  let e := {| exc_class := EOFError; exc_msg := fault_msg EndOfInput |} in
  run (S k) s
  = {| phase := Ended; messages := messages s; tools_executed := tools_executed s;
       stdin := [];
       world := emit (EvStderr (format_exc e))
                  (emit (EvPrint ("[ERROR] " +:+ exc_msg e))
                     (emit (EvPrompt " > Inserte su consulta aquí: ") (world s))) |}.
Proof.
  intros Hphase Hin e. cbn [run].
  assert (Hstep : step s
                  = {| phase := Ended; messages := messages s;
                       tools_executed := tools_executed s; stdin := [];
                       world := emit (EvStderr (format_exc e))
                                  (emit (EvPrint ("[ERROR] " +:+ exc_msg e))
                                     (emit (EvPrompt " > Inserte su consulta aquí: ")
                                        (world s))) |}).
  { unfold step. rewrite Hphase. unfold await_user. rewrite Hin. reflexivity. }
  rewrite Hstep. apply run_terminal. left. reflexivity.
Qed.

(** X20. When the backend fails within [Exception], [call_agent] prints
    its diagnostic and lets the exception through; the handler of [main]
    prints it with its trace and ends the session.  The history keeps the
    user message, and the user is not prompted again. *)
Theorem backend_failure_ends_session (s : Session) (e : Exc) (n : Net) (k : nat) :
  phase s = ModelTurn ->
  ollama_chat (messages s) (net (world s)) = (Raised e, n) ->
  is_Exception (exc_class e) = true ->
  run (S k) s
  = {| phase := Ended; messages := messages s; tools_executed := tools_executed s;
       stdin := stdin s;
       world :=
         emit (EvStderr (format_exc e))
           (emit (EvPrint ("[ERROR] " +:+ exc_msg e))
              (emit (EvPrint ("[ERROR] Fallo en la llamada a ollama.chat: " +:+ exc_msg e))
                 (with_net n (emit (EvChat (messages s)) (world s))))) |}.
Proof.
  intros Hphase Hchat He. cbn [run].
  assert (Hstep : step s = {| phase := Ended; messages := messages s;
      tools_executed := tools_executed s; stdin := stdin s;
      world :=
         emit (EvStderr (format_exc e))
           (emit (EvPrint ("[ERROR] " +:+ exc_msg e))
              (emit (EvPrint ("[ERROR] Fallo en la llamada a ollama.chat: " +:+ exc_msg e))
                 (with_net n (emit (EvChat (messages s)) (world s))))) |}).
  { unfold step. rewrite Hphase. unfold model_turn, call_agent, outside. cbn.
    rewrite Hchat, He. unfold leave_loop.
    rewrite (Exception_is_not_interrupt _ He), He. reflexivity. }
  rewrite Hstep. apply run_terminal. left. reflexivity.
Qed.

(** X21. An exception from outside [Exception] raised by the backend is
    not reported by [call_agent].  A [KeyboardInterrupt] ends the session
    with the interruption notice; any other one leaves [main] uncaught.
    The history is kept in both cases. *)
Theorem base_exception_from_backend (s : Session) (e : Exc) (n : Net) :
  phase s = ModelTurn ->
  ollama_chat (messages s) (net (world s)) = (Raised e, n) ->
  is_Exception (exc_class e) = false ->
  step s
  = if is_KeyboardInterrupt (exc_class e)
    then {| phase := Ended; messages := messages s; tools_executed := tools_executed s;
            stdin := stdin s;
            world := emit (EvPrint (nl +:+ "[Interrumpido por el usuario]"))
                       (with_net n (emit (EvChat (messages s)) (world s))) |}
    else {| phase := Crashed; messages := messages s; tools_executed := tools_executed s;
            stdin := stdin s;
            world := with_net n (emit (EvChat (messages s)) (world s)) |}.
Proof.
  intros Hphase Hchat He.
  unfold step. rewrite Hphase. unfold model_turn, call_agent, outside. cbn.
  rewrite Hchat, He. unfold leave_loop. rewrite He.
  destruct (is_KeyboardInterrupt (exc_class e)); reflexivity.
Qed.

(** X22. A response without tool-call requests and with text: the text is
    printed between blank lines and appended as the assistant message,
    and the loop waits for the user again. *)
Theorem final_answer_is_recorded
    (s : Session) (response tool_calls content : PyVal) (n : Net) :
  phase s = ModelTurn ->
  ollama_chat (messages s) (net (world s)) = (Returned response, n) ->
  response_field response "tool_calls" (PList []) = Returned tool_calls ->
  truthy tool_calls = false ->
  response_field response "content" (PStr EmptyString) = Returned content ->
  truthy content = true ->
  step s
  = {| phase := AwaitingUser; messages := messages s ++ [assistant_message content];
       tools_executed := tools_executed s; stdin := stdin s;
       world := emit (EvPrint (nl +:+ py_str content +:+ nl))
                  (with_net n (emit (EvChat (messages s)) (world s))) |}.
Proof.
  intros Hphase Hchat Htc Hno Hcontent Htext.
  unfold step. rewrite Hphase. unfold model_turn.
  rewrite (call_agent_returned _ _ _ _ Hchat), Htc, Hno, Hcontent, Htext. reflexivity.
Qed.

End LoopFurther.

(** ** The tools, further (tools.py, lines 17-43 and 72-79) *)

Section ToolFurther.
Context `{Externals}.

Lemma without_backslashes_app (a b : string) :
  without_backslashes (a +:+ b) = without_backslashes a +:+ without_backslashes b.
Proof.
  induction a as [| c a IH]; [reflexivity |].
  rewrite append_cons. cbn. destruct (Ascii.eqb c bslash); [exact IH |].
  rewrite append_cons, IH. reflexivity.
Qed.

Lemma without_backslashes_double (s : string) :
  without_backslashes (double_backslashes s) = without_backslashes s.
Proof.
  induction s as [| c s IH]; [reflexivity |]. cbn.
  destruct (Ascii.eqb c bslash) eqn:Hc; cbn.
  - rewrite Ascii.eqb_refl. exact IH.
  - rewrite Hc, IH. reflexivity.
Qed.

Lemma length_double_backslashes (s : string) :
  String.length s <= String.length (double_backslashes s).
Proof.
  induction s as [| c s IH]; [reflexivity |]. cbn.
  destruct (Ascii.eqb c bslash); cbn; lia.
Qed.

Lemma string_drop_app (mid rest : string) :
  string_drop (String.length mid) (mid +:+ rest) = rest.
Proof.
  induction mid as [| c mid IH]; [destruct rest; reflexivity |].
  rewrite append_cons. cbn. exact IH.
Qed.

(** What a match puts in place of the text it consumes differs from that
    text by inserted backslashes only. *)
Lemma match_here_replacement (c : ascii) (s' repl rest : string) :
  match_here (String c s') = Some (repl, rest) ->
  exists mid,
    s' = mid +:+ rest
    /\ without_backslashes repl = without_backslashes (String c mid)
    /\ String.length (String c mid) <= String.length repl.
Proof.
  unfold match_here.
  assert (Hplain : forall o,
    match match_quoted (String c s') with
    | Some (q, body, rest0) =>
        Some (String q (double_backslashes body +:+ String q EmptyString), rest0)
    | None => None
    end = Some o ->
    exists mid, s' = mid +:+ snd o
                /\ without_backslashes (fst o) = without_backslashes (String c mid)
                /\ String.length (String c mid) <= String.length (fst o)).
  { intros o. destruct (match_quoted (String c s')) as [[[q body] rest0] |] eqn:Hm;
      [| discriminate].
    apply match_quoted_spec in Hm as [Hs _]. inversion Hs; subst.
    intros Ho. inversion Ho; subst. cbn [fst snd].
    exists (body +:+ String q EmptyString). split; [rewrite append_assoc; reflexivity |].
    split.
    - cbn [without_backslashes].
      rewrite !without_backslashes_app, without_backslashes_double. reflexivity.
    - pose proof (length_double_backslashes body). cbn. rewrite !length_append. cbn. lia. }
  destruct (is_raw_prefix c).
  - destruct (match_quoted s') as [[[q body] rest0] |] eqn:Hm.
    + apply match_quoted_spec in Hm as [Hs _]. intros Ho. inversion Ho; subst.
      exists (String q (body +:+ String q EmptyString)).
      split; [rewrite append_cons, append_assoc; reflexivity |].
      split; [reflexivity | reflexivity].
    + intros Ho. exact (Hplain _ Ho).
  - intros Ho. exact (Hplain _ Ho).
Qed.

Lemma sub_path_literals_inserts (s : string) (skip : nat) :
  without_backslashes (sub_path_literals skip s) = without_backslashes (string_drop skip s)
  /\ String.length (string_drop skip s) <= String.length (sub_path_literals skip s).
Proof.
  revert skip. induction s as [| c s' IH]; intros skip.
  - destruct skip; split; reflexivity.
  - destruct skip as [| k]; [| exact (IH k)].
    cbn [sub_path_literals string_drop].
    destruct (match_here (String c s')) as [[repl rest] |] eqn:Hm.
    + destruct (match_here_replacement c s' repl rest Hm) as (mid & -> & Hwb & Hlen).
      rewrite length_append.
      replace (String.length mid + String.length rest - String.length rest)
        with (String.length mid) by lia.
      destruct (IH (String.length mid)) as [IHwb IHlen].
      rewrite string_drop_app in IHwb, IHlen.
      split.
      * rewrite without_backslashes_app, IHwb, Hwb, <- without_backslashes_app.
        reflexivity.
      * rewrite length_append. cbn in Hlen |- *. rewrite length_append. lia.
    + destruct (IH 0) as [IHwb IHlen].
      assert (Hd : string_drop 0 s' = s') by (destruct s'; reflexivity).
      rewrite Hd in IHwb, IHlen.
      split; [cbn; rewrite IHwb; reflexivity | cbn; lia].
Qed.

(** X23. Code without a backslash passes through the sanitation as it
    is. *)
Theorem sanitize_keeps_code_without_backslash (code : string) :
  contains_char bslash code = false ->
  _sanitize_path_literals (PStr code) = Returned (PStr code).
Proof.
  intros Hcode. cbn. rewrite (sub_path_literals_no_backslash code Hcode). reflexivity.
Qed.

(** X24. The sanitation of a string only ever inserts backslashes: with
    all backslashes deleted, the result and the code are the same text,
    and the result is at least as long as the code. *)
Theorem sanitize_only_inserts_backslashes (code : string) :
  exists safe_code : string,
    _sanitize_path_literals (PStr code) = Returned (PStr safe_code)
    /\ without_backslashes safe_code = without_backslashes code
    /\ String.length code <= String.length safe_code.
Proof.
  exists (sub_path_literals 0 code). split; [reflexivity |].
  destruct (sub_path_literals_inserts code 0) as [Hwb Hlen].
  assert (Hd : string_drop 0 code = code) by (destruct code; reflexivity).
  rewrite Hd in Hwb, Hlen. split; assumption.
Qed.

Lemma split_first_app (c : ascii) (a r : string) :
  contains_char c a = false -> split_first c (a +:+ String c r) = Some (a, r).
Proof.
  induction a as [| x a IH]; intros Ha.
  - change (EmptyString +:+ String c r) with (String c r). cbn [split_first].
    rewrite Ascii.eqb_refl. reflexivity.
  - cbn [contains_char] in Ha. apply orb_false_iff in Ha as [Hx Ha].
    rewrite append_cons. cbn [split_first]. rewrite Hx, (IH Ha). reflexivity.
Qed.

Lemma double_backslashes_app (a b : string) :
  double_backslashes (a +:+ b) = double_backslashes a +:+ double_backslashes b.
Proof.
  induction a as [| x a IH]; [reflexivity |].
  rewrite append_cons. cbn. destruct (Ascii.eqb x bslash);
    rewrite ?append_cons, IH; reflexivity.
Qed.

Lemma double_backslashes_none (a : string) :
  contains_char bslash a = false -> double_backslashes a = a.
Proof.
  induction a as [| x a IH]; [reflexivity |]. intros Ha.
  cbn [contains_char] in Ha. apply orb_false_iff in Ha as [Hx Ha].
  cbn [double_backslashes]. rewrite Hx, (IH Ha). reflexivity.
Qed.

Lemma quote_is_no_raw_prefix (q : ascii) : is_quote q = true -> is_raw_prefix q = false.
Proof.
  unfold is_quote, is_raw_prefix. intros Hq.
  apply orb_true_iff in Hq as [Hq | Hq]; apply Ascii.eqb_eq in Hq; subst; reflexivity.
Qed.

Lemma match_quoted_literal (q : ascii) (a b rest : string) :
  is_quote q = true ->
  contains_char bslash a = false ->
  contains_char q b = false ->
  match_quoted (String q (a +:+ String bslash (b +:+ String q rest)))
  = Some (q, a +:+ String bslash b, rest).
Proof.
  intros Hq Ha Hb. cbn [match_quoted]. rewrite Hq, (split_first_app bslash a _ Ha).
  rewrite (split_first_app q b rest Hb). reflexivity.
Qed.

Lemma match_here_plain_literal (q : ascii) (a b rest : string) :
  is_quote q = true ->
  contains_char bslash a = false ->
  contains_char q b = false ->
  match_here (String q (a +:+ String bslash (b +:+ String q rest)))
  = Some (String q ((a +:+ String bslash (String bslash (double_backslashes b)))
                    +:+ String q EmptyString), rest).
Proof.
  intros Hq Ha Hb. unfold match_here.
  rewrite (quote_is_no_raw_prefix q Hq), (match_quoted_literal q a b rest Hq Ha Hb).
  rewrite double_backslashes_app, (double_backslashes_none a Ha).
  cbn [double_backslashes]. rewrite Ascii.eqb_refl. reflexivity.
Qed.

Lemma match_here_raw_literal (p q : ascii) (a b rest : string) :
  is_raw_prefix p = true ->
  is_quote q = true ->
  contains_char bslash a = false ->
  contains_char q b = false ->
  match_here (String p (String q (a +:+ String bslash (b +:+ String q rest))))
  = Some (String p (String q ((a +:+ String bslash b) +:+ String q EmptyString)), rest).
Proof.
  intros Hp Hq Ha Hb. unfold match_here.
  rewrite Hp, (match_quoted_literal q a b rest Hq Ha Hb). reflexivity.
Qed.

(** X25. A quoted literal at the start of the code, with its first
    backslash before any further backslash-free text [a] and no closing
    quote inside [b]: without prefix every backslash of the literal is
    doubled, also one that was an escape already; behind [r] or [R] the
    literal is kept as it is.  The scan resumes after the closing
    quote. *)
Theorem sanitize_quoted_literal (q : ascii) (a b rest : string) :
  is_quote q = true ->
  contains_char bslash a = false ->
  contains_char q b = false ->
  sub_path_literals 0 (String q (a +:+ String bslash (b +:+ String q rest)))
  = String q (a +:+ String bslash (String bslash
                (double_backslashes b +:+ String q (sub_path_literals 0 rest))))
  /\ forall p : ascii,
       is_raw_prefix p = true ->
       sub_path_literals 0 (String p (String q (a +:+ String bslash (b +:+ String q rest))))
       = String p (String q (a +:+ String bslash
                              (b +:+ String q (sub_path_literals 0 rest)))).
Proof.
  intros Hq Ha Hb. split.
  - rewrite sub_path_literals_unfold, (match_here_plain_literal q a b rest Hq Ha Hb).
    repeat (rewrite append_cons || rewrite append_assoc). reflexivity.
  - intros p Hp.
    rewrite sub_path_literals_unfold, (match_here_raw_literal p q a b rest Hp Hq Ha Hb).
    repeat (rewrite append_cons || rewrite append_assoc). reflexivity.
Qed.

(** X26. [_ensure_exec_env] is idempotent and leaves a namespace that is
    never empty: an empty one is seeded with exactly [pd] and [plt], which
    is the namespace the first [code_exec] of a process runs in; any other
    one is left alone. *)
Theorem ensure_exec_env_seeds_once :
  (forall w : World, _ensure_exec_env (_ensure_exec_env w) = _ensure_exec_env w)
  /\ (forall w : World, _EXEC_GLOBALS (_ensure_exec_env w) <> ∅)
  /\ (forall w : World,
        _EXEC_GLOBALS w = ∅ ->
        exec_namespace w = <["plt" := plt_module]> (<["pd" := pd_module]> ∅)
        /\ exec_namespace w !! "pd" = Some pd_module
        /\ exec_namespace w !! "plt" = Some plt_module
        /\ forall x, x <> "pd" -> x <> "plt" -> exec_namespace w !! x = None)
  /\ (forall w : World, _EXEC_GLOBALS w <> ∅ -> _ensure_exec_env w = w).
Proof.
  assert (Hne : forall w : World, _EXEC_GLOBALS (_ensure_exec_env w) <> ∅).
  { intros w. unfold _ensure_exec_env.
    destruct (decide (_EXEC_GLOBALS w = ∅)); [| assumption]. cbn. apply insert_non_empty. }
  assert (Hid : forall w : World, _EXEC_GLOBALS w <> ∅ -> _ensure_exec_env w = w).
  { intros w Hw. unfold _ensure_exec_env.
    destruct (decide (_EXEC_GLOBALS w = ∅)); [contradiction | reflexivity]. }
  split; [intros w; apply Hid, Hne |]. split; [exact Hne |]. split; [| exact Hid].
  intros w Hw. unfold exec_namespace, _ensure_exec_env.
  destruct (decide (_EXEC_GLOBALS w = ∅)); [| contradiction]. cbn.
  split; [reflexivity |]. split; [reflexivity |]. split; [apply lookup_insert_eq |].
  intros x Hpd Hplt. rewrite !lookup_insert_ne by congruence. apply lookup_empty.
Qed.

(** X27. Whatever the data and however the call ends, [save_text_to_file]
    with a file name never shortens or replaces what the file of that
    name held: the old content stays as the beginning of the new one. *)
Theorem save_text_to_file_never_truncates (data : PyVal) (fn : string) (w : World)
    (old : string) :
  files w !! fn = Some old ->
  exists added : string,
    files (snd (save_text_to_file data (PStr fn) w)) !! fn = Some (old +:+ added).
Proof.
  assert (Hnil : forall s : string, s = s +:+ EmptyString).
  { intros s. induction s as [| c s IH]; [reflexivity |].
    rewrite append_cons, <- IH. reflexivity. }
  intros Hold. unfold save_text_to_file.
  destruct (open_append_denied fn (net w)) as [e |]; cbn [snd].
  - exists EmptyString. rewrite Hold, <- Hnil. reflexivity.
  - assert (Hopen : files (open_append fn w) !! fn = Some old).
    { rewrite open_append_lookup, Hold. reflexivity. }
    destruct data as [ | bo | z | d | xs | kvs]; cbn [snd];
      try (exists EmptyString; rewrite Hopen, <- Hnil; reflexivity).
    exists d. unfold write_append. rewrite Hopen. cbn. apply lookup_insert_eq.
Qed.

(** X28. A request to save something that is not a string, under a file
    name that the operating system accepts.  The dispatcher answers with
    the report of the [TypeError] of the write; by then the file has been
    opened, so it exists afterwards: created empty if it was absent, with
    its content as it was otherwise. *)
Theorem save_of_non_string_opens_the_file (data : PyVal) (fn : string) (w : World) :
  open_append_denied fn (net w) = None ->
  is_str data = false ->
  fst (execute_tool_call
         (request "save_text_to_file" (PDict [("data", data); ("filename", PStr fn)])) w)
    = Returned (tool_failure_error (PStr "save_text_to_file")
                  {| exc_class := TypeError; exc_msg := fault_msg (WriteNotStr data) |})
  /\ files (snd (execute_tool_call
                   (request "save_text_to_file"
                      (PDict [("data", data); ("filename", PStr fn)])) w)) !! fn
     = Some (default EmptyString (files w !! fn)).
Proof.
  intros Hok Hdata.
  rewrite (execute_tool_call_registered _ (PStr "save_text_to_file")
             (PDict [("data", data); ("filename", PStr fn)]) "save_text_to_file"
             save_text_to_file_fn w (read_call_request _ _) eq_refl eq_refl).
  unfold invoke. cbn [bind_kwargs]. cbn. unfold save_text_to_file. cbn [net emit].
  rewrite Hok.
  destruct data; try discriminate; cbn;
    (split; [reflexivity | rewrite open_append_lookup; reflexivity]).
Qed.

End ToolFurther.

(** ** Closed examples of the further properties *)

Module FurtherExamples.
Import Demo DemoStartup.

(** X2 with the five candidates of [main] and a backend where only
    [qwen2.5] answers. *)
Lemma select_working_model_chosen_witness :
  fst (@select_working_model demo demo_probe (model_candidates "qwen3:8b") boot0)
    = Returned (Some "qwen2.5")
  /\ ("qwen2.5" ∈ model_candidates "qwen3:8b"
      /\ "qwen2.5" <> EmptyString
      /\ last (probes_of (boot_trace
                 (snd (@select_working_model demo demo_probe (model_candidates "qwen3:8b") boot0))))
         = Some "qwen2.5"
      /\ exists v n n', demo_probe "qwen2.5" n = (Returned v, n')).
Proof.
  split; [reflexivity |].
  apply (@select_working_model_chosen demo demo_probe (model_candidates "qwen3:8b") boot0 "qwen2.5").
  reflexivity.
Defined.

Example probes_in_order :
  probes_of (boot_trace
    (snd (@select_working_model demo demo_probe (model_candidates "qwen3:8b") boot0)))
  = ["qwen3:8b"; "deepseek-r1:8b"; "qwen2.5"].
Proof. reflexivity. Qed.

(** X3 with a backend that never answers. *)
Lemma select_working_model_none_witness :
  fst (@select_working_model demo dead_probe (model_candidates "qwen3:8b") boot0) = Returned None
  /\ exists P : list string,
       probes_of (boot_trace
         (snd (@select_working_model demo dead_probe (model_candidates "qwen3:8b") boot0)))
         = probes_of (boot_trace boot0) ++ P
       /\ forall c, c ∈ model_candidates "qwen3:8b" -> c <> EmptyString -> c ∈ P.
Proof.
  split; [reflexivity |].
  apply (@select_working_model_none demo dead_probe (model_candidates "qwen3:8b") boot0).
  reflexivity.
Defined.

(** X4 with that backend: [qwen2.5] is the first candidate that answers. *)
Lemma select_working_model_is_find_witness :
  fst (@select_working_model demo demo_probe (model_candidates "qwen3:8b") boot0)
  = Returned (List.find (fun c => negb (String.eqb c EmptyString) && String.eqb c "qwen2.5")
                (model_candidates "qwen3:8b")).
Proof.
  apply (@select_working_model_is_find demo demo_probe (fun c => String.eqb c "qwen2.5")
           (model_candidates "qwen3:8b") boot0).
  intros c n. unfold demo_probe. destruct (String.eqb c "qwen2.5"); simpl.
  - reflexivity.
  - split; reflexivity.
Defined.

(** X10 at a note saved without a file name. *)
Lemma save_through_dispatch_default_filename_witness :
  let r := execute_tool_call
             (request "save_text_to_file" (PDict [("data", PStr "nota")])) (world0 []) in
  fst r = Returned "Data successfully saved to research_output.txt"
  /\ files (snd r) !! "research_output.txt"
     = Some (default EmptyString (files (world0 []) !! "research_output.txt") +:+ "nota").
Proof.
  apply (save_through_dispatch_default_filename "nota" (world0 [])). reflexivity.
Defined.

(** X11 at a web search that also carries [limit]. *)
Lemma unexpected_argument_rejected_witness :
  let kvs := [("query", PStr "a"); ("limit", PInt 3)] in
  exists e,
    exc_class e = TypeError
    /\ execute_tool_call (request "search_web" (PDict kvs)) (world0 [])
       = (Returned (tool_failure_error (PStr "search_web") e),
          emit (EvPrint (execution_notice (PStr "search_web") (PDict kvs))) (world0 [])).
Proof.
  intros kvs.
  apply (unexpected_argument_rejected (request "search_web" (PDict kvs)) "search_web"
           search_web_fn kvs "limit" (PInt 3) (world0 [])); reflexivity.
Defined.

(** X12 at [save_text_to_file]. *)
Lemma registry_matches_descriptors_witness :
  "save_text_to_file" ∈ advertised_names
  /\ exists spec,
       schema_of "save_text_to_file" = Some spec
       /\ spec_properties spec = ["data"; "filename"]
       /\ spec_required spec = ["data"].
Proof.
  split.
  - apply (proj1 registry_matches_descriptors "save_text_to_file").
    exists save_text_to_file_fn. reflexivity.
  - apply (proj2 registry_matches_descriptors "save_text_to_file" save_text_to_file_fn).
    reflexivity.
Defined.

(** X14 along a session with one round of tool use. *)
Lemma model_sees_whole_history_witness :
  let w := world0 [reply [define_x] EmptyString; reply [] "fin"] in
  Forall (fun h => h `prefix_of` messages (main 3 ["hola"] w)
                   /\ head h = Some system_message)
         (model_calls (trace (world (main 3 ["hola"] w)))).
Proof.
  intros w. apply (model_sees_whole_history ["hola"] w 3). reflexivity.
Defined.

(** X17 at the line quit, with a further line left unread. *)
Lemma exit_word_ends_session_witness :
  run 4 (start ["quit"; "hola"] (world0 [reply [] "fin"]))
  = {| phase := Ended; messages := [system_message]; tools_executed := false;
       stdin := ["hola"];
       world := emit (EvPrompt " > Inserte su consulta aquí: ") (world0 [reply [] "fin"]) |}.
Proof.
  apply (exit_word_ends_session (start ["quit"; "hola"] (world0 [reply [] "fin"]))
           "quit" ["hola"] 3); [reflexivity | reflexivity |].
  right. left. reflexivity.
Defined.

(** X18 at the line hola. *)
Lemma user_line_is_sent_to_model_witness :
  let s := session [reply [] "fin"] in
  step s
  = {| phase := ModelTurn; messages := messages s ++ [user_message "hola"];
       tools_executed := false; stdin := [];
       world := emit (EvPrompt " > Inserte su consulta aquí: ") (world s) |}
  /\ model_calls (trace (world (step (step s))))
     = model_calls (trace (world s)) ++ [messages s ++ [user_message "hola"]].
Proof.
  intros s.
  apply (user_line_is_sent_to_model s "hola" []); [reflexivity | reflexivity | | |];
    discriminate.
Defined.

(** X19 at a session without input. *)
Lemma end_of_input_ends_session_witness :
  phase (run 2 (start [] (world0 []))) = Ended
  /\ messages (run 2 (start [] (world0 []))) = [system_message].
Proof.
  rewrite (end_of_input_ends_session (start [] (world0 [])) 1 eq_refl eq_refl).
  split; reflexivity.
Defined.

(** X20 with a backend that is unreachable. *)
Lemma backend_failure_ends_session_witness :
  let s := waiting_for_model [] in
  phase (run 3 s) = Ended
  /\ messages (run 3 s) = [system_message; user_message "hola"]
  /\ model_calls (trace (world (run 3 s))) = [[system_message; user_message "hola"]].
Proof.
  intros s.
  rewrite (backend_failure_ends_session s
             {| exc_class := OtherException "ConnectionError";
                exc_msg := "backend unreachable" |} [] 2 eq_refl eq_refl eq_refl).
  repeat split; reflexivity.
Defined.

(** X21 with a backend call that the user interrupts. *)
Lemma base_exception_from_backend_witness :
  phase (@step DemoInterrupted.interrupted DemoInterrupted.waiting) = Ended
  /\ trace (world (@step DemoInterrupted.interrupted DemoInterrupted.waiting))
     = [EvChat (messages DemoInterrupted.waiting);
        EvPrint (nl +:+ "[Interrumpido por el usuario]")].
Proof.
  rewrite (@base_exception_from_backend DemoInterrupted.interrupted DemoInterrupted.waiting
             {| exc_class := KeyboardInterrupt; exc_msg := EmptyString |} []
             eq_refl eq_refl eq_refl).
  split; reflexivity.
Defined.

(** X22 at the answer fin. *)
Lemma final_answer_is_recorded_witness :
  let s := waiting_for_model [reply [] "fin"] in
  step s
  = {| phase := AwaitingUser; messages := messages s ++ [assistant_message (PStr "fin")];
       tools_executed := false; stdin := [];
       world := emit (EvPrint (nl +:+ "fin" +:+ nl))
                  (with_net [] (emit (EvChat (messages s)) (world s))) |}.
Proof.
  intros s.
  apply (final_answer_is_recorded s (reply [] "fin") (PList []) (PStr "fin") []);
    reflexivity.
Defined.

(** X23 at a program without backslash. *)
Lemma sanitize_keeps_code_without_backslash_witness :
  _sanitize_path_literals (PStr "print('hola')") = Returned (PStr "print('hola')").
Proof.
  apply (sanitize_keeps_code_without_backslash "print('hola')"). reflexivity.
Defined.

(** X25 at a Windows path, plain and raw. *)
Lemma sanitize_quoted_literal_witness :
  let tail := String bslash "new" +:+ "')" in
  sub_path_literals 0 ("'C:" +:+ tail)
    = "'C:" +:+ String bslash (String bslash "new") +:+ "')"
  /\ sub_path_literals 0 ("r'C:" +:+ tail) = "r'C:" +:+ tail.
Proof.
  intros tail.
  destruct (sanitize_quoted_literal "'"%char "C:" "new" ")" eq_refl eq_refl eq_refl)
    as [Hplain Hraw].
  split; [exact Hplain | exact (Hraw "r"%char eq_refl)].
Defined.

(** X26 at a fresh process. *)
Lemma ensure_exec_env_seeds_once_witness :
  exec_namespace (world0 []) !! "pd" = Some 1%Z
  /\ exec_namespace (world0 []) !! "plt" = Some 2%Z
  /\ exec_namespace (world0 []) !! "x" = None.
Proof.
  destruct ensure_exec_env_seeds_once as (_ & _ & Hseed & _).
  destruct (Hseed (world0 []) eq_refl) as (_ & Hpd & Hplt & Hother).
  split; [exact Hpd |]. split; [exact Hplt |]. apply Hother; discriminate.
Defined.

(** X27 at a file that holds uno and a write that fails. *)
Lemma save_text_to_file_never_truncates_witness :
  let w := snd (save_text_to_file (PStr "uno") (PStr "notes.txt") (world0 [])) in
  exists added : string,
    files (snd (save_text_to_file (PInt 5) (PStr "notes.txt") w)) !! "notes.txt"
    = Some ("uno" +:+ added).
Proof.
  intros w.
  apply (save_text_to_file_never_truncates (PInt 5) "notes.txt" w "uno").
  reflexivity.
Defined.

(** X28 at a number given as data and a file that does not exist yet. *)
Lemma save_of_non_string_opens_the_file_witness :
  fst (execute_tool_call
         (request "save_text_to_file"
            (PDict [("data", PInt 5); ("filename", PStr "notes.txt")])) (world0 []))
    = Returned (tool_failure_error (PStr "save_text_to_file")
                  {| exc_class := TypeError; exc_msg := fault_msg (WriteNotStr (PInt 5)) |})
  /\ files (snd (execute_tool_call
                   (request "save_text_to_file"
                      (PDict [("data", PInt 5); ("filename", PStr "notes.txt")]))
                   (world0 []))) !! "notes.txt"
     = Some (default EmptyString (files (world0 []) !! "notes.txt")).
Proof.
  apply (save_of_non_string_opens_the_file (PInt 5) "notes.txt" (world0 []));
    reflexivity.
Defined.

End FurtherExamples.
